(** * TextAssetSwap: the backup / strip / restore engine of [swap.py]

    A shallow embedding of [backup_pk3] and [restore_pk3] over an explicit
    model of the filesystem, of the console and of Python's control flow
    (exceptions, [try]/[except], early [return], [with]).

    Modelling boundary.  [os], [shutil] and [zipfile] are library code; they
    are modelled at the level of their documented behaviour on a POSIX
    system:
    - the filesystem is a finite map from path strings to nodes (a regular
      file with its bytes, or a directory); two different strings name two
      different files; a path is a string without NUL character (with a
      NUL the [os] and [shutil] calls raise [ValueError], which is not an
      exception of the model), and a directory is one node (the paths below
      it are not tracked, so renaming a directory that has contents is
      outside the model);
    - a path may be _frozen_: its directory entry cannot be changed (the
      parent directory is read-only or missing), so the path can be neither
      created, removed nor renamed, while the bytes of an existing file at
      that path can still be overwritten;
    - the ZIP codec itself ([unzip], [zip_image]) is a parameter of the
      development: nothing is assumed about it; [unzip bs = None] stands for
      the bytes [zipfile] refuses with [BadZipFile] (bytes it refuses with
      another exception are outside the model);
    - an archive member may be unreadable (bad CRC, encrypted, unsupported
      compression): [ZipFile.read] raises on it;
    - entry names and prefixes are the strings [zipfile] presents (free of
      NUL characters, within the format's length limit) and entry names are
      not empty, so [writestr] itself does not raise (on the empty name
      [writestr] of Python 3.11 raises [IndexError]). *)

From stdpp Require Import base option list strings gmap.
From Stdlib Require Import Strings.Ascii Strings.Byte.


(** ** Strings: [str.startswith], [str.endswith], [os.path.join] *)

Module Str.

(** [s.startswith(p)] *)
Definition startswith (s p : string) : bool := String.prefix p s.

Fixpoint last_char (s : string) : option ascii :=
  match s with
  | EmptyString => None
  | String c EmptyString => Some c
  | String _ rest => last_char rest
  end.

(** [s.endswith('/')] *)
Definition endswith_sep (s : string) : bool :=
  match last_char s with
  | Some c => bool_decide (c = "/"%char)
  | None => false
  end.

Definition is_empty (s : string) : bool :=
  match s with EmptyString => true | _ => false end.

(** [posixpath.join(a, b)] for one component [b]. *)
Definition os_path_join (a b : string) : string :=
  if startswith b "/" then b
  else if is_empty a || endswith_sep a then a +:+ b
  else a +:+ "/" +:+ b.

End Str.

(** ** Data model *)

Abbreviation bytes := (list byte).

(** A member of an archive opened for reading, in central-directory order.
    [intact = false] stands for a member whose bytes [ZipFile.read] cannot
    deliver. *)
Record member := Member {
  filename : string;
  data : bytes;
  intact : bool
}.

Inductive node :=
| File (content : bytes)
| Dir.

Record FS := MkFS {
  nodes : gmap string node;
  frozen : gset string
}.

(** Python exception classes that the modelled library calls raise. *)
Inductive exn :=
| FileNotFoundError
| IsADirectoryError
| NotADirectoryError
| PermissionError
| SameFileError
| BadZipFile
| KeyError.

(** [except IOError] / [except OSError] (one class in Python 3). *)
Definition is_OSError (e : exn) : bool :=
  match e with
  | BadZipFile | KeyError => false
  | _ => true
  end.

(** [except zipfile.BadZipFile] *)
Definition is_BadZipFile (e : exn) : bool :=
  match e with
  | BadZipFile => true
  | _ => false
  end.

(** [except Exception] *)
Definition is_Exception (_ : exn) : bool := true.

(** One constructor per [print] of the two operations. *)
Inductive message :=
| ErrFileNotFound (pk3_file : string)
| WarnBackupExists (backup_file : string)
| BackupCreated (backup_file : string)
| ErrCreatingBackup (e : exn)
| ErrCopying (name : string) (e : exn)
| AddedPlaceholder (keep_file_path : string)
| ErrPlaceholder (keep_file_path : string) (e : exn)
| FilesRemoved (pk3_file : string)
| ErrNotZip (pk3_file : string)
| ErrModification (e : exn)
| Modified (pk3_file : string)
| ErrReplacing (e : exn)
| ErrBackupNotFound (backup_file : string)
| Removing (pk3_file : string)
| ErrRemoving (pk3_file : string) (e : exn)
| Restored (pk3_file : string)
| ErrRestoring (e : exn).

(** The error kinds of the specification, as read off the messages. *)
Inductive error_kind := NotFoundError | FormatError | IOError.

Definition kind_of (m : message) : option error_kind :=
  match m with
  | ErrFileNotFound _ | ErrBackupNotFound _ => Some NotFoundError
  | ErrNotZip _ => Some FormatError
  | ErrCreatingBackup _ | ErrModification _ | ErrReplacing _
  | ErrRemoving _ _ | ErrRestoring _ => Some IOError
  | _ => None
  end.

(** Non-fatal, per-entry and per-placeholder errors. *)
Definition is_entry_error (m : message) : bool :=
  match m with
  | ErrCopying _ _ | ErrPlaceholder _ _ => true
  | _ => false
  end.

(** ** The filesystem calls *)

Module Os.

(** [os.path.exists(p)] *)
Definition path_exists (p : string) (fs : FS) : bool :=
  bool_decide (is_Some (nodes fs !! p)).

(** [os.remove(p)] *)
Definition remove (p : string) (fs : FS) : exn + FS :=
  match nodes fs !! p with
  | None => inl FileNotFoundError
  | Some Dir => inl IsADirectoryError
  | Some (File _) =>
      if bool_decide (p ∈ frozen fs) then inl PermissionError
      else inr (MkFS (delete p (nodes fs)) (frozen fs))
  end.

(** [os.rename(src, dst)]: the node moves; for a directory the paths below
    it are not tracked. *)
Definition rename (src dst : string) (fs : FS) : exn + FS :=
  match nodes fs !! src with
  | None => inl FileNotFoundError
  | Some n =>
      if bool_decide (src = dst) then inr fs
      else if bool_decide (src ∈ frozen fs) || bool_decide (dst ∈ frozen fs)
      then inl PermissionError
      else match n, nodes fs !! dst with
           | File _, Some Dir => inl IsADirectoryError
           | Dir, Some (File _) => inl NotADirectoryError
           | _, _ => inr (MkFS (<[dst := n]> (delete src (nodes fs))) (frozen fs))
           end
  end.

(** [open(p, 'wb')]: the file is created or truncated.  A frozen free path
    stands for a read-only and for a missing parent directory alike, under
    the one exception [PermissionError]. *)
Definition create (p : string) (fs : FS) : exn + FS :=
  match nodes fs !! p with
  | Some Dir => inl IsADirectoryError
  | Some (File _) => inr (MkFS (<[p := File []]> (nodes fs)) (frozen fs))
  | None =>
      if bool_decide (p ∈ frozen fs) then inl PermissionError
      else inr (MkFS (<[p := File []]> (nodes fs)) (frozen fs))
  end.

(** Writing [bs] through a handle opened on [p]. *)
Definition store (p : string) (bs : bytes) (fs : FS) : FS :=
  MkFS (<[p := File bs]> (nodes fs)) (frozen fs).

(** [shutil.copyfile(src, dst)] *)
Definition copyfile (src dst : string) (fs : FS) : exn + FS :=
  if bool_decide (src = dst) then inl SameFileError
  else match nodes fs !! src with
       | None => inl FileNotFoundError
       | Some Dir => inl IsADirectoryError
       | Some (File bs) =>
           match create dst fs with
           | inl e => inl e
           | inr fs' => inr (store dst bs fs')
           end
       end.

End Os.

(** ** Python control flow over the world *)

Record world := World {
  disk : FS;
  stdout : list message;
  zip_write : list (string * bytes)   (* members written so far through the
                                         archive opened with mode 'w' *)
}.

Inductive flow (A : Type) :=
| Normal (a : A)
| Raised (e : exn)
| Returned.
Arguments Normal {A} a.
Arguments Raised {A} e.
Arguments Returned {A}.

Definition Py (A : Type) : Type := world → flow A * world.

#[global] Instance Py_ret : MRet Py := λ A a w, (Normal a, w).

#[global] Instance Py_bind : MBind Py := λ A B f m w,
  match m w with
  | (Normal a, w') => f a w'
  | (Raised e, w') => (Raised e, w')
  | (Returned, w') => (Returned, w')
  end.

Definition pass : Py unit := mret tt.

Definition raise {A} (e : exn) : Py A := λ w, (Raised e, w).

(** [return] inside a function body. *)
Definition return_ {A} : Py A := λ w, (Returned, w).

(** The function boundary: a [return] ends the call normally. *)
Definition def (body : Py unit) : Py unit := λ w,
  match body w with
  | (Returned, w') => (Normal tt, w')
  | r => r
  end.

Definition print (m : message) : Py unit := λ w,
  (Normal tt, World (disk w) (stdout w ++ [m]) (zip_write w)).

(** An [except cls as e: handler] clause. *)
Definition clause (A : Type) : Type := (exn → bool) * (exn → Py A).

Fixpoint dispatch {A} (clauses : list (clause A)) (e : exn) : option (Py A) :=
  match clauses with
  | [] => None
  | (cls, handler) :: rest =>
      if cls e then Some (handler e) else dispatch rest e
  end.

(** [try: body except ...:] with the clauses tried in order. *)
Definition try_ {A} (body : Py A) (clauses : list (clause A)) : Py A := λ w,
  match body w with
  | (Raised e, w') =>
      match dispatch clauses e with
      | Some handler => handler w'
      | None => (Raised e, w')
      end
  | r => r
  end.

(** [with open_ as r: body], the exit action runs on every way out. *)
Definition with_ {R A} (open_ : Py R) (exit_ : R → Py unit) (body : R → Py A)
  : Py A := λ w,
  match open_ w with
  | (Normal r, w1) =>
      match body r w1 with
      | (res, w2) =>
          match exit_ r w2 with
          | (Normal _, w3) => (res, w3)
          | (Raised e, w3) => (Raised e, w3)
          | (Returned, w3) => (Returned, w3)
          end
      end
  | (Raised e, w1) => (Raised e, w1)
  | (Returned, w1) => (Returned, w1)
  end.

Fixpoint for_ {A} (xs : list A) (body : A → Py unit) : Py unit :=
  match xs with
  | [] => pass
  | x :: rest => body x;; for_ rest body
  end.

(** A filesystem call, run on the disk of the world. *)
Definition syscall (op : FS → exn + FS) : Py unit := λ w,
  match op (disk w) with
  | inl e => (Raised e, w)
  | inr fs' => (Normal tt, World fs' (stdout w) (zip_write w))
  end.

Definition os_path_exists (p : string) : Py bool := λ w,
  (Normal (Os.path_exists p (disk w)), w).

Definition os_remove (p : string) : Py unit := syscall (Os.remove p).
Definition os_rename (src dst : string) : Py unit := syscall (Os.rename src dst).
Definition shutil_copyfile (src dst : string) : Py unit :=
  syscall (Os.copyfile src dst).

(** ** The archive calls *)

(** An archive opened with mode 'r': [filelist] is what [infolist()] returns,
    [NameToInfo] is the dictionary [zipfile] fills while it reads the central
    directory, [NameToInfo[x.filename] = x] for each [x] in order. *)
Record zip_reader := ZipReader {
  filelist : list member;
  NameToInfo : gmap string member
}.

Definition open_reader (central_directory : list member) : zip_reader :=
  ZipReader central_directory
            (foldl (λ d x, <[filename x := x]> d) ∅ central_directory).

Definition infolist (zf : zip_reader) : list member := filelist zf.

(** [zf.read(name)]: the member is found by name. *)
Definition read (zf : zip_reader) (name : string) : Py bytes :=
  match NameToInfo zf !! name with
  | None => raise KeyError
  | Some zinfo => if intact zinfo then mret (data zinfo) else raise BadZipFile
  end.

(** [zip_write.writestr(arcname, data)], for a name that is not empty and
    within the length limit of the format. *)
Definition writestr (arcname : string) (bs : bytes) : Py unit := λ w,
  (Normal tt, World (disk w) (stdout w) (zip_write w ++ [(arcname, bs)])).

(** The inner loop of [backup_pk3], lines 60-64: the flag and its [break]. *)
Fixpoint should_exclude (item_filename : string) (dirs_to_clear : list string)
  : bool :=
  match dirs_to_clear with
  | [] => false
  | dir_path :: rest =>
      if Str.startswith item_filename dir_path then true
      else should_exclude item_filename rest
  end.

Definition keep_file_path (dir_path : string) : string :=
  Str.os_path_join dir_path ".keep".

(** Line 51: the path of the temporary archive. *)
Definition temp_of (pk3_file : string) : string := "temp_" +:+ pk3_file.

Section Engine.

(** The ZIP codec: [unzip bs] is the central directory [zipfile] reads
    from the bytes [bs] ([None]: [BadZipFile]); [zip_image ms] is what the
    archive opened with mode 'w' leaves on disk when it is closed after
    the members [ms] were written. *)
Variable unzip : bytes → option (list member).
Variable zip_image : list (string * bytes) → bytes.

(** [zipfile.ZipFile(file, 'r')]: of the exceptions [zipfile] raises on
    bytes it cannot read, [BadZipFile] is the modelled one. *)
Definition ZipFile_r (file : string) : Py zip_reader := λ w,
  match nodes (disk w) !! file with
  | None => (Raised FileNotFoundError, w)
  | Some Dir => (Raised IsADirectoryError, w)
  | Some (File bs) =>
      match unzip bs with
      | Some cd => (Normal (open_reader cd), w)
      | None => (Raised BadZipFile, w)
      end
  end.

(** [zipfile.ZipFile(file, 'w', zipfile.ZIP_DEFLATED)] *)
Definition ZipFile_w (file : string) : Py string := λ w,
  match Os.create file (disk w) with
  | inl e => (Raised e, w)
  | inr fs' => (Normal file, World fs' (stdout w) [])
  end.

(** Leaving the [with] block closes the written archive. *)
Definition ZipFile_close (file : string) : Py unit := λ w,
  (Normal tt,
   World (Os.store file (zip_image (zip_write w)) (disk w))
         (stdout w) (zip_write w)).

(** Lines 58-72, one iteration. *)
Definition copy_item (zip_read : zip_reader) (dirs_to_clear : list string)
    (item : member) : Py unit :=
  if negb (should_exclude (filename item) dirs_to_clear) then
    try_ (bs ← read zip_read (filename item);
          writestr (filename item) bs)
      [(is_Exception, λ e, print (ErrCopying (filename item) e))]
  else pass.

(** Lines 75-81, one iteration. *)
Definition add_keep (dir_path : string) : Py unit :=
  let keep := keep_file_path dir_path in
  try_ (writestr keep [];; print (AddedPlaceholder keep))
    [(is_Exception, λ e, print (ErrPlaceholder keep e))].

(** The body of the [with] block, lines 58-81. *)
Definition strip (zip_read : zip_reader) (dirs_to_clear : list string)
  : Py unit :=
  for_ (infolist zip_read) (copy_item zip_read dirs_to_clear);;
  for_ dirs_to_clear add_keep.

Definition backup_pk3 (pk3_file backup_file : string)
    (dirs_to_clear : list string) : Py unit :=
  def (
    (found ← os_path_exists pk3_file;
     if negb found then print (ErrFileNotFound pk3_file);; return_
     else pass);;
    (found ← os_path_exists backup_file;
     if found : bool then print (WarnBackupExists backup_file) else pass);;
    try_ (shutil_copyfile pk3_file backup_file;;
          print (BackupCreated backup_file))
      [(is_OSError, λ e, print (ErrCreatingBackup e);; return_)];;
    let temp_pk3 := temp_of pk3_file in
    try_ (with_ (ZipFile_r pk3_file) (λ _, pass) (λ zip_read,
            with_ (ZipFile_w temp_pk3) ZipFile_close (λ _,
              strip zip_read dirs_to_clear));;
          print (FilesRemoved pk3_file))
      [(is_BadZipFile, λ _,
          print (ErrNotZip pk3_file);; os_remove backup_file;; return_);
       (is_Exception, λ e,
          print (ErrModification e);; os_remove backup_file;; return_)];;
    try_ (os_remove pk3_file;;
          os_rename temp_pk3 pk3_file;;
          print (Modified pk3_file))
      [(is_Exception, λ e, print (ErrReplacing e))]).

End Engine.

Definition restore_pk3 (pk3_file backup_file : string) : Py unit :=
  def (
    (found ← os_path_exists backup_file;
     if negb found then print (ErrBackupNotFound backup_file);; return_
     else pass);;
    (found ← os_path_exists pk3_file;
     if found : bool then
       print (Removing pk3_file);;
       try_ (os_remove pk3_file)
         [(is_OSError, λ e, print (ErrRemoving pk3_file e);; return_)]
     else pass);;
    try_ (os_rename backup_file pk3_file;; print (Restored pk3_file))
      [(is_OSError, λ e, print (ErrRestoring e))]).

(** Running an operation on a filesystem, with an empty console. *)
Definition run (op : Py unit) (fs : FS) : flow unit * world :=
  op (World fs [] []).

(** What the strip loop writes for a given central directory. *)
Definition rewrite_members (cd : list member) (dirs_to_clear : list string)
  : list (string * bytes) :=
  zip_write (strip (open_reader cd) dirs_to_clear (World (MkFS ∅ ∅) [] [])).2.

(** Reading back an archive that [zipfile] wrote: the same members in the
    same order, all readable. *)
Definition reopen (written : list (string * bytes)) : list member :=
  map (λ nb, Member nb.1 nb.2 true) written.

(** What an operation leaves behind. *)
Definition outcome (op : Py unit) (fs : FS) : flow unit := (run op fs).1.
Definition printed_by (op : Py unit) (fs : FS) : list message :=
  stdout (run op fs).2.
Definition disk_after (op : Py unit) (fs : FS) : FS := disk (run op fs).2.

(** ** Characterising the strip loop *)

(** What one iteration of the copy loop appends to the written archive, and
    what it prints. *)
Definition item_out (zr : zip_reader) (dirs : list string) (item : member)
  : list (string * bytes) :=
  if should_exclude (filename item) dirs then []
  else match NameToInfo zr !! filename item with
       | Some zinfo =>
           if intact zinfo then [(filename item, data zinfo)] else []
       | None => []
       end.

Definition item_log (zr : zip_reader) (dirs : list string) (item : member)
  : list message :=
  if should_exclude (filename item) dirs then []
  else match NameToInfo zr !! filename item with
       | Some zinfo =>
           if intact zinfo then [] else [ErrCopying (filename item) BadZipFile]
       | None => [ErrCopying (filename item) KeyError]
       end.

Definition strip_out (zr : zip_reader) (dirs : list string)
  : list (string * bytes) :=
  flat_map (item_out zr dirs) (infolist zr)
  ++ map (λ d, (keep_file_path d, [])) dirs.

Definition strip_log (zr : zip_reader) (dirs : list string) : list message :=
  flat_map (item_log zr dirs) (infolist zr)
  ++ map (λ d, AddedPlaceholder (keep_file_path d)) dirs.

(** Line 40: the warning, when a backup is already there. *)
Definition warn_overwrite (backup_file : string) (fs : FS) : list message :=
  if Os.path_exists backup_file fs then [WarnBackupExists backup_file] else [].

(** The entry names the specification announces for the rewritten
    archive: the names that start with no prefix, and [p + ".keep"] for each
    prefix [p]. *)
Definition spec_names (cd : list member) (prefixes : list string)
  : list string :=
  List.filter (λ n, negb (should_exclude n prefixes)) (map filename cd)
  ++ map (λ p, p +:+ ".keep") prefixes.

(** ** A small codec and a small disk for the examples *)

Module Demo.

Definition st (s : string) : bytes := String.list_byte_of_string s.

(** The bytes standing for the sample archive of the specification's
    scenario. *)
Definition assets_bytes : bytes := st "PK-assets".

Definition assets : list member :=
  [ Member "a.txt" (st "alpha") true;
    Member "ext_data/mb2/character/foo.cfg" (st "foo") true;
    Member "ext_data/mb2/teamconfig/bar.cfg" (st "bar") true;
    Member "readme.md" (st "read me") true ].

(** Two members under one name. *)
Definition twins : list member :=
  [ Member "notes.txt" (st "first") true;
    Member "notes.txt" (st "second") true ].

(** A member that cannot be read. *)
Definition damaged : list member :=
  [ Member "a.txt" (st "alpha") false;
    Member "readme.md" (st "read me") true ].

Definition samples : list (string * list member) :=
  [ ("PK-assets", assets); ("PK-twins", twins); ("PK-damaged", damaged) ].

Definition unzip (bs : bytes) : option (list member) :=
  snd <$> List.find (λ s, String.eqb s.1 (String.string_of_list_byte bs))
                    samples.

Definition zip_image (ms : list (string * bytes)) : bytes :=
  st "PK" ++ flat_map (λ nb, st nb.1 ++ [x00] ++ nb.2 ++ [x00]) ms.

Definition DIRS_TO_CLEAR : list string :=
  [ "ext_data/mb2/character/"; "ext_data/mb2/teamconfig/" ].

Definition fs0 : FS :=
  MkFS {[ "MBAssets3.pk3" := File assets_bytes ]} ∅.

(** A stripped archive next to its backup. *)
Definition fs_stripped : FS :=
  MkFS {[ "MBAssets3.pk3" := File (st "PK-stripped");
          "MBAssets3.pk3.bak" := File assets_bytes ]} ∅.

(** The same, the archive being held in place. *)
Definition fs_held : FS :=
  MkFS {[ "MBAssets3.pk3" := File (st "PK-stripped");
          "MBAssets3.pk3.bak" := File assets_bytes ]}
       {[ "MBAssets3.pk3" ]}.

(** A text file named like an archive, next to an older backup that sits
    in a read-only directory. *)
Definition fs_text : FS :=
  MkFS {[ "notes.pk3" := File (st "plain text");
          "notes.pk3.bak" := File (st "old backup") ]}
       {[ "notes.pk3.bak" ]}.

(** A text file named like an archive, alone. *)
Definition fs_text_alone : FS :=
  MkFS {[ "notes.pk3" := File (st "plain text") ]} ∅.

Definition fs_twins : FS :=
  MkFS {[ "twins.pk3" := File (st "PK-twins") ]} ∅.

Definition fs_damaged : FS :=
  MkFS {[ "damaged.pk3" := File (st "PK-damaged") ]} ∅.

End Demo.

Abbreviation demo_backup := (backup_pk3 Demo.unzip Demo.zip_image).

(** ** Paths the library calls accept *)


(** ** The outcomes of the two operations, case by case *)

(** Two filesystems that agree outside the paths [touched]: the same frozen
    paths, and the same node at every other path. *)
Definition same_outside (touched : list string) (fs fs' : FS) : Prop :=
  frozen fs' = frozen fs
  ∧ ∀ q, q ∉ touched → nodes fs' !! q = nodes fs !! q.

(** How the rewrite of lines 53-83 fails, with the message its handler
    prints: the archive is not a ZIP file (line 86), or the temporary
    archive cannot be opened for writing (line 90). *)
Definition rewrite_fails (unzip : bytes → option (list member))
    (pk3_file : string) (bs : bytes) (fs1 : FS) (m : message) : Prop :=
  (unzip bs = None ∧ m = ErrNotZip pk3_file)
  ∨ (∃ cd e, unzip bs = Some cd
             ∧ Os.create (temp_of pk3_file) fs1 = inl e
             ∧ m = ErrModification e).

(** The filesystem and the console right after the [with] block of a
    rewrite that went through. *)
Definition rewritten (zip_image : list (string * bytes) → bytes)
    (pk3_file : string) (cd : list member) (dirs : list string) (fs2 : FS)
  : FS :=
  Os.store (temp_of pk3_file) (zip_image (rewrite_members cd dirs)) fs2.

Definition rewritten_log (pk3_file backup_file : string) (cd : list member)
    (dirs : list string) (fs : FS) : list message :=
  warn_overwrite backup_file fs
  ++ BackupCreated backup_file
  :: strip_log (open_reader cd) dirs ++ [FilesRemoved pk3_file].

(** Every way a call of [backup_pk3] can end. *)
Inductive backup_run (unzip : bytes → option (list member))
    (zip_image : list (string * bytes) → bytes)
    (pk3_file backup_file : string) (dirs : list string) (fs : FS)
  : flow unit * world → Prop :=
| backup_not_found :
    Os.path_exists pk3_file fs = false →
    backup_run unzip zip_image pk3_file backup_file dirs fs
      (Normal tt, World fs [ErrFileNotFound pk3_file] [])
| backup_copy_failed e :
    Os.path_exists pk3_file fs = true →
    Os.copyfile pk3_file backup_file fs = inl e →
    backup_run unzip zip_image pk3_file backup_file dirs fs
      (Normal tt,
       World fs (warn_overwrite backup_file fs ++ [ErrCreatingBackup e]) [])
| backup_rolled_back bs fs1 m fs2 :
    nodes fs !! pk3_file = Some (File bs) →
    Os.copyfile pk3_file backup_file fs = inr fs1 →
    rewrite_fails unzip pk3_file bs fs1 m →
    Os.remove backup_file fs1 = inr fs2 →
    backup_run unzip zip_image pk3_file backup_file dirs fs
      (Normal tt,
       World fs2
             (warn_overwrite backup_file fs ++ [BackupCreated backup_file; m])
             [])
| backup_rollback_raised bs fs1 m e :
    nodes fs !! pk3_file = Some (File bs) →
    Os.copyfile pk3_file backup_file fs = inr fs1 →
    rewrite_fails unzip pk3_file bs fs1 m →
    Os.remove backup_file fs1 = inl e →
    backup_run unzip zip_image pk3_file backup_file dirs fs
      (Raised e,
       World fs1
             (warn_overwrite backup_file fs ++ [BackupCreated backup_file; m])
             [])
| backup_archive_stays bs cd fs1 fs2 e :
    nodes fs !! pk3_file = Some (File bs) →
    Os.copyfile pk3_file backup_file fs = inr fs1 →
    unzip bs = Some cd →
    Os.create (temp_of pk3_file) fs1 = inr fs2 →
    Os.remove pk3_file (rewritten zip_image pk3_file cd dirs fs2) = inl e →
    backup_run unzip zip_image pk3_file backup_file dirs fs
      (Normal tt,
       World (rewritten zip_image pk3_file cd dirs fs2)
             (rewritten_log pk3_file backup_file cd dirs fs
              ++ [ErrReplacing e])
             (rewrite_members cd dirs))
| backup_archive_lost bs cd fs1 fs2 fs3 e :
    nodes fs !! pk3_file = Some (File bs) →
    Os.copyfile pk3_file backup_file fs = inr fs1 →
    unzip bs = Some cd →
    Os.create (temp_of pk3_file) fs1 = inr fs2 →
    Os.remove pk3_file (rewritten zip_image pk3_file cd dirs fs2) = inr fs3 →
    Os.rename (temp_of pk3_file) pk3_file fs3 = inl e →
    backup_run unzip zip_image pk3_file backup_file dirs fs
      (Normal tt,
       World fs3
             (rewritten_log pk3_file backup_file cd dirs fs
              ++ [ErrReplacing e])
             (rewrite_members cd dirs))
| backup_modified bs cd fs1 fs2 fs3 fs4 :
    nodes fs !! pk3_file = Some (File bs) →
    Os.copyfile pk3_file backup_file fs = inr fs1 →
    unzip bs = Some cd →
    Os.create (temp_of pk3_file) fs1 = inr fs2 →
    Os.remove pk3_file (rewritten zip_image pk3_file cd dirs fs2) = inr fs3 →
    Os.rename (temp_of pk3_file) pk3_file fs3 = inr fs4 →
    backup_run unzip zip_image pk3_file backup_file dirs fs
      (Normal tt,
       World fs4
             (rewritten_log pk3_file backup_file cd dirs fs
              ++ [Modified pk3_file])
             (rewrite_members cd dirs)).

(** Lines 111-117 of [restore_pk3]: the archive path is free afterwards. *)
Definition vacated (pk3_file : string) (fs fs1 : FS) (log : list message)
  : Prop :=
  (Os.path_exists pk3_file fs = false ∧ fs1 = fs ∧ log = [])
  ∨ (Os.path_exists pk3_file fs = true
     ∧ Os.remove pk3_file fs = inr fs1
     ∧ log = [Removing pk3_file]).

(** Every way a call of [restore_pk3] can end. *)
Inductive restore_run (pk3_file backup_file : string) (fs : FS)
  : flow unit * world → Prop :=
| restore_not_found :
    Os.path_exists backup_file fs = false →
    restore_run pk3_file backup_file fs
      (Normal tt, World fs [ErrBackupNotFound backup_file] [])
| restore_archive_stays e :
    Os.path_exists backup_file fs = true →
    Os.path_exists pk3_file fs = true →
    Os.remove pk3_file fs = inl e →
    restore_run pk3_file backup_file fs
      (Normal tt, World fs [Removing pk3_file; ErrRemoving pk3_file e] [])
| restore_rename_failed fs1 log e :
    Os.path_exists backup_file fs = true →
    vacated pk3_file fs fs1 log →
    Os.rename backup_file pk3_file fs1 = inl e →
    restore_run pk3_file backup_file fs
      (Normal tt, World fs1 (log ++ [ErrRestoring e]) [])
| restore_restored fs1 log fs2 :
    Os.path_exists backup_file fs = true →
    vacated pk3_file fs fs1 log →
    Os.rename backup_file pk3_file fs1 = inr fs2 →
    restore_run pk3_file backup_file fs
      (Normal tt, World fs2 (log ++ [Restored pk3_file]) []).

(** ** [resource_path] *)

(** Lines 7-18. [meipass] is [sys._MEIPASS] when the attribute exists (the
    bundled executable) and [None] when reading it raises; [cwd] is
    [os.path.abspath(".")]. *)
Definition resource_path (meipass : option string) (cwd : string)
    (relative_path : string) : string :=
  let base_path :=
    match meipass with
    | Some bundle => bundle
    | None => cwd
    end in
  Str.os_path_join base_path relative_path.

(** ** More disks for the examples *)

Module Cases.

(** The sample archive, held in place: it cannot be removed. *)
Definition fs_pinned : FS :=
  MkFS {[ "MBAssets3.pk3" := File Demo.assets_bytes ]} {[ "MBAssets3.pk3" ]}.

(** The sample archive in a place where the temporary archive cannot be
    created. *)
Definition fs_no_temp : FS :=
  MkFS {[ "MBAssets3.pk3" := File Demo.assets_bytes ]}
       {[ "temp_MBAssets3.pk3" ]}.

(** A stripped archive next to a backup that cannot be moved. *)
Definition fs_backup_stuck : FS :=
  MkFS {[ "MBAssets3.pk3" := File (Demo.st "PK-stripped");
          "MBAssets3.pk3.bak" := File Demo.assets_bytes ]}
       {[ "MBAssets3.pk3.bak" ]}.

(** What the strip of the sample archive writes, and its bytes. *)
Definition stripped : list (string * bytes) :=
  rewrite_members Demo.assets Demo.DIRS_TO_CLEAR.

Definition stripped_bytes : bytes := Demo.zip_image stripped.

(** A codec that also reads the stripped sample archive back. *)
Definition unzip (bs : bytes) : option (list member) :=
  if String.eqb (String.string_of_list_byte bs)
                (String.string_of_list_byte stripped_bytes)
  then Some (reopen stripped)
  else Demo.unzip bs.

End Cases.

(** ** The calls [main] makes *)

Module Main.

(** Line 160. *)
Definition BACKUP_FILE (pk3_file_name : string) : string :=
  pk3_file_name +:+ ".bak".

(** Lines 161-164. *)
Definition DIRS_TO_CLEAR : list string :=
  [ "ext_data/mb2/character/"; "ext_data/mb2/teamconfig/" ].

(** Line 178: what choice 1 of the menu runs. *)
Definition choice_1 (unzip : bytes → option (list member))
    (zip_image : list (string * bytes) → bytes) (pk3_file_name : string)
  : Py unit :=
  backup_pk3 unzip zip_image pk3_file_name (BACKUP_FILE pk3_file_name)
             DIRS_TO_CLEAR.

(** Line 181: what choice 2 of the menu runs. *)
Definition choice_2 (pk3_file_name : string) : Py unit :=
  restore_pk3 pk3_file_name (BACKUP_FILE pk3_file_name).

End Main.

(** ** Proof support *)

Ltac py_unfold :=
  unfold run, backup_pk3, restore_pk3, def, try_, with_,
    read, writestr, print, pass, return_, raise, os_path_exists,
    os_remove, os_rename, shutil_copyfile, syscall, ZipFile_r, ZipFile_w,
    ZipFile_close, mbind, mret, Py_bind, Py_ret in *;
  cbn [dispatch fst snd disk stdout zip_write is_Exception app] in *.

Lemma path_exists_true p fs :
  Os.path_exists p fs = true ↔ is_Some (nodes fs !! p).
Proof. unfold Os.path_exists. apply bool_decide_eq_true. Qed.

Lemma path_exists_false p fs :
  Os.path_exists p fs = false ↔ nodes fs !! p = None.
Proof.
  unfold Os.path_exists. rewrite bool_decide_eq_false.
  rewrite eq_None_not_Some. done.
Qed.

(** Every exception of [os.remove] is an [OSError]. *)
Lemma remove_raises_OSError p fs e :
  Os.remove p fs = inl e → is_OSError e = true.
Proof.
  unfold Os.remove. intros H.
  destruct (nodes fs !! p) as [[bs|]|]; [case_bool_decide| |]; by simplify_eq.
Qed.

(** Every exception of [os.rename] is an [OSError]. *)
Lemma rename_raises_OSError src dst fs e :
  Os.rename src dst fs = inl e → is_OSError e = true.
Proof.
  unfold Os.rename. intros H.
  destruct (nodes fs !! src) as [n|]; [|by simplify_eq].
  case_bool_decide; [by simplify_eq|].
  destruct (_ || _); [by simplify_eq|].
  destruct n, (nodes fs !! dst) as [[?|]|]; by simplify_eq.
Qed.

(** Every exception of [shutil.copyfile] is an [OSError]. *)
Lemma copyfile_raises_OSError src dst fs e :
  Os.copyfile src dst fs = inl e → is_OSError e = true.
Proof.
  unfold Os.copyfile, Os.create. intros H.
  case_bool_decide; [by simplify_eq|].
  destruct (nodes fs !! src) as [[bs|]|]; [|by simplify_eq..].
  destruct (nodes fs !! dst) as [[?|]|]; [by simplify_eq..|].
  case_bool_decide; by simplify_eq.
Qed.

(** What a successful [os.remove] did. *)
Lemma remove_ok p fs fs' :
  Os.remove p fs = inr fs' →
  fs' = MkFS (delete p (nodes fs)) (frozen fs)
  ∧ (p ∉ frozen fs) ∧ ∃ bs, nodes fs !! p = Some (File bs).
Proof.
  unfold Os.remove. intros H.
  destruct (nodes fs !! p) as [[bs|]|]; [|by simplify_eq..].
  case_bool_decide; simplify_eq. eauto.
Qed.

(** What a successful [os.rename] onto a free path did. *)
Lemma rename_ok_fresh src dst fs fs' :
  Os.rename src dst fs = inr fs' →
  nodes fs !! dst = None →
  src ≠ dst
  ∧ (src ∉ frozen fs)
  ∧ ∃ n, nodes fs !! src = Some n
         ∧ fs' = MkFS (<[dst := n]> (delete src (nodes fs))) (frozen fs).
Proof.
  unfold Os.rename. intros H Hdst.
  destruct (nodes fs !! src) as [n|] eqn:Hsrc; [|by simplify_eq].
  case_bool_decide as Heq; [congruence|].
  destruct (bool_decide (src ∈ frozen fs)) eqn:Hfr; [by simplify_eq|].
  apply bool_decide_eq_false in Hfr.
  destruct (bool_decide (dst ∈ frozen fs)); [by simplify_eq|].
  rewrite Hdst in H. cbn in H.
  destruct n; simplify_eq; eauto.
Qed.

(** What a successful [open(p, 'wb')] did. *)
Lemma create_ok p fs fs' :
  Os.create p fs = inr fs' →
  fs' = MkFS (<[p := File []]> (nodes fs)) (frozen fs)
  ∧ nodes fs !! p ≠ Some Dir
  ∧ (nodes fs !! p = None → p ∉ frozen fs).
Proof.
  unfold Os.create. intros H.
  destruct (nodes fs !! p) as [[?|]|]; [by simplify_eq..|].
  case_bool_decide; by simplify_eq.
Qed.

(** What a successful [shutil.copyfile] did. *)
Lemma copyfile_ok src dst fs fs' :
  Os.copyfile src dst fs = inr fs' →
  src ≠ dst
  ∧ nodes fs !! dst ≠ Some Dir
  ∧ (nodes fs !! dst = None → dst ∉ frozen fs)
  ∧ ∃ bs, nodes fs !! src = Some (File bs)
          ∧ fs' = MkFS (<[dst := File bs]> (nodes fs)) (frozen fs).
Proof.
  unfold Os.copyfile. intros H.
  case_bool_decide; [by simplify_eq|].
  destruct (nodes fs !! src) as [[bs|]|]; [|by simplify_eq..].
  destruct (Os.create dst fs) as [e|fs1] eqn:Hcr; simplify_eq.
  destruct (create_ok _ _ _ Hcr) as (-> & ? & ?).
  split_and!; [done..|]. exists bs. split; [done|].
  unfold Os.store. cbn. by rewrite insert_insert_eq.
Qed.

Lemma temp_of_fresh pk3_file : temp_of pk3_file ≠ pk3_file.
Proof.
  intros H. apply (f_equal String.length) in H.
  cbv [temp_of String.append] in H. cbn [String.length] in H. lia.
Qed.

(** A message that is none of the messages of an explicit list is not in
    it. *)
Ltac absent :=
  let H := fresh in
  intros H;
  repeat (apply elem_of_cons in H as [H|H]; [discriminate H|]);
  by apply elem_of_nil in H.

(** ** Restore *)

(** On the paths of the model (no NUL character) [restore_pk3] never lets
    an exception escape. *)
Lemma restore_pk3_never_raises pk3_file backup_file fs :
  (run (restore_pk3 pk3_file backup_file) fs).1 = Normal tt.
Proof.
  py_unfold.
  destruct (Os.path_exists backup_file fs); [|done]. cbn.
  destruct (Os.path_exists pk3_file fs); cbn.
  - destruct (Os.remove pk3_file fs) as [e|fs1] eqn:Hrm; cbn.
    + by rewrite (remove_raises_OSError _ _ _ Hrm).
    + destruct (Os.rename backup_file pk3_file fs1) as [e|fs2] eqn:Hmv; cbn.
      * by rewrite (rename_raises_OSError _ _ _ _ Hmv).
      * done.
  - destruct (Os.rename backup_file pk3_file fs) as [e|fs2] eqn:Hmv; cbn.
    + by rewrite (rename_raises_OSError _ _ _ _ Hmv).
    + done.
Qed.

(** C6. When the backup path does not exist, [restore_pk3] reports
    NotFoundError (the message of line 108) and nothing else happens: the
    filesystem after the call is the filesystem before it, so an archive
    present at [pk3_file] is still there. *)
Theorem restore_pk3_backup_missing pk3_file backup_file fs :
  Os.path_exists backup_file fs = false →
  run (restore_pk3 pk3_file backup_file) fs
    = (Normal tt, World fs [ErrBackupNotFound backup_file] [])
  ∧ kind_of (ErrBackupNotFound backup_file) = Some NotFoundError.
Proof.
  intros Hmiss. split; [|done].
  py_unfold. by rewrite Hmiss.
Qed.

(** C7. When the archive exists and [os.remove] refuses to delete it,
    [restore_pk3] reports IOError (the message of line 116) and stops: the
    filesystem is unchanged, so the backup is untouched at its path and the
    archive is still present. *)
Theorem restore_pk3_remove_fails pk3_file backup_file fs e :
  Os.path_exists backup_file fs = true →
  Os.path_exists pk3_file fs = true →
  Os.remove pk3_file fs = inl e →
  run (restore_pk3 pk3_file backup_file) fs
    = (Normal tt, World fs [Removing pk3_file; ErrRemoving pk3_file e] [])
  ∧ kind_of (ErrRemoving pk3_file e) = Some IOError
  ∧ is_Some (nodes fs !! pk3_file).
Proof.
  intros Hbak Hpk3 Hrm. split_and!; [|done|by apply path_exists_true].
  py_unfold. rewrite Hbak. cbn. rewrite Hpk3. cbn. rewrite Hrm. cbn.
  by rewrite (remove_raises_OSError _ _ _ Hrm).
Qed.

(** The successful restore: the backup node has moved to the archive path. *)
Lemma restore_pk3_restored_inv pk3_file backup_file fs r w :
  run (restore_pk3 pk3_file backup_file) fs = (r, w) →
  Restored pk3_file ∈ stdout w →
  nodes (disk w) !! backup_file = None
  ∧ nodes (disk w) !! pk3_file = nodes fs !! backup_file
  ∧ is_Some (nodes fs !! backup_file).
Proof.
  assert (Hmove : ∀ fs1 fs2,
    Os.rename backup_file pk3_file fs1 = inr fs2 →
    nodes fs1 !! pk3_file = None →
    nodes fs2 !! backup_file = None
    ∧ nodes fs2 !! pk3_file = nodes fs1 !! backup_file
    ∧ is_Some (nodes fs1 !! backup_file)).
  { intros fs1 fs2 Hmv Hfree.
    destruct (rename_ok_fresh _ _ _ _ Hmv Hfree) as (Hne & _ & n & Hn & ->).
    cbn. rewrite Hn, lookup_insert_ne, lookup_delete_eq, lookup_insert_eq by done.
    eauto. }
  py_unfold.
  destruct (Os.path_exists backup_file fs) eqn:Hbak; cbn.
  2:{ intros [= <- <-]. cbn. absent. }
  destruct (Os.path_exists pk3_file fs) eqn:Hpk3; cbn.
  - destruct (Os.remove pk3_file fs) as [e|fs1] eqn:Hrm; cbn.
    { rewrite (remove_raises_OSError _ _ _ Hrm). cbn.
      intros [= <- <-]. cbn. absent. }
    destruct (remove_ok _ _ _ Hrm) as (-> & _ & bs & Hbs). cbn.
    destruct (Os.rename backup_file pk3_file _) as [e|fs2] eqn:Hmv; cbn.
    { rewrite (rename_raises_OSError _ _ _ _ Hmv). cbn.
      intros [= <- <-]. cbn. absent. }
    intros [= <- <-] _. cbn.
    destruct (Hmove _ _ Hmv) as (H1 & H2 & H3); [apply lookup_delete_eq|].
    cbn in *. destruct (decide (backup_file = pk3_file)) as [->|Hne].
    { rewrite lookup_delete_eq in H3. by destruct H3. }
    rewrite lookup_delete_ne in H2, H3 by done. done.
  - apply path_exists_false in Hpk3.
    destruct (Os.rename backup_file pk3_file fs) as [e|fs2] eqn:Hmv; cbn.
    { rewrite (rename_raises_OSError _ _ _ _ Hmv). cbn.
      intros [= <- <-]. cbn. absent. }
    intros [= <- <-] _. cbn. by apply Hmove.
Qed.


(** C8. After a successful [restore_pk3] (the one that prints the message
    of line 122) nothing is left at the backup path: the backup existed
    before the call and is now what the archive path holds. *)
Theorem restore_pk3_consumes_backup pk3_file backup_file fs :
  Restored pk3_file ∈ printed_by (restore_pk3 pk3_file backup_file) fs →
  nodes (disk_after (restore_pk3 pk3_file backup_file) fs) !! backup_file
    = None
  ∧ nodes (disk_after (restore_pk3 pk3_file backup_file) fs) !! pk3_file
    = nodes fs !! backup_file
  ∧ is_Some (nodes fs !! backup_file).
Proof.
  unfold printed_by, disk_after.
  destruct (run (restore_pk3 pk3_file backup_file) fs) as [r w] eqn:Hrun.
  cbn. by apply restore_pk3_restored_inv with r.
Qed.

(** ** The strip loop *)

Lemma copy_item_run zr dirs item w :
  copy_item zr dirs item w
  = (Normal tt, World (disk w) (stdout w ++ item_log zr dirs item)
                      (zip_write w ++ item_out zr dirs item)).
Proof.
  unfold copy_item, item_log, item_out.
  destruct w as [d out zw]. cbn.
  destruct (should_exclude (filename item) dirs); cbn.
  { by rewrite !app_nil_r. }
  py_unfold.
  destruct (NameToInfo zr !! filename item) as [zinfo|]; cbn.
  - destruct (intact zinfo); cbn; by rewrite ?app_nil_r.
  - by rewrite ?app_nil_r.
Qed.

Lemma copy_loop_run zr dirs items w :
  for_ items (copy_item zr dirs) w
  = (Normal tt, World (disk w) (stdout w ++ flat_map (item_log zr dirs) items)
                      (zip_write w ++ flat_map (item_out zr dirs) items)).
Proof.
  revert w. induction items as [|item items IH]; intros [d out zw]; cbn.
  { by rewrite !app_nil_r. }
  unfold mbind, Py_bind. rewrite copy_item_run. cbn.
  rewrite IH. cbn. by rewrite <- !app_assoc.
Qed.

Lemma keep_loop_run dirs w :
  for_ dirs add_keep w
  = (Normal tt,
     World (disk w)
           (stdout w ++ map (λ d, AddedPlaceholder (keep_file_path d)) dirs)
           (zip_write w ++ map (λ d, (keep_file_path d, [])) dirs)).
Proof.
  revert w. induction dirs as [|d dirs IH]; intros [fs out zw]; cbn.
  { by rewrite !app_nil_r. }
  unfold mbind, Py_bind, add_keep. py_unfold. cbn. rewrite IH. cbn.
  by rewrite <- !app_assoc.
Qed.

Lemma strip_run zr dirs w :
  strip zr dirs w
  = (Normal tt, World (disk w) (stdout w ++ strip_log zr dirs)
                      (zip_write w ++ strip_out zr dirs)).
Proof.
  unfold strip, strip_log, strip_out, mbind, Py_bind.
  rewrite copy_loop_run, keep_loop_run. cbn.
  by rewrite <- !app_assoc.
Qed.

Lemma rewrite_members_eq cd dirs :
  rewrite_members cd dirs = strip_out (open_reader cd) dirs.
Proof. unfold rewrite_members. by rewrite strip_run. Qed.

Lemma strip_log_shape zr dirs m :
  m ∈ strip_log zr dirs →
  (∃ n e, m = ErrCopying n e) ∨ (∃ k, m = AddedPlaceholder k).
Proof.
  unfold strip_log. rewrite elem_of_app. intros [H|H].
  - apply list_elem_of_In, in_flat_map in H as (item & _ & H).
    apply list_elem_of_In in H. unfold item_log in H.
    destruct (should_exclude _ _); [by apply elem_of_nil in H|].
    destruct (NameToInfo zr !! filename item) as [z|].
    + destruct (intact z); [by apply elem_of_nil in H|].
      apply list_elem_of_singleton in H. eauto.
    + apply list_elem_of_singleton in H. eauto.
  - apply list_elem_of_fmap in H as (d & -> & _). eauto.
Qed.

Ltac absent_in H :=
  first
    [ apply elem_of_nil in H; destruct H
    | apply elem_of_cons in H as [H|H]; [discriminate H | absent_in H]
    | apply elem_of_app in H as [H|H]; [absent_in H | absent_in H]
    | apply strip_log_shape in H as [(? & ? & H)|(? & H)]; discriminate H ].


(** ** Entry names of the rewritten archive *)

Lemma startswith_app d s : Str.startswith (d +:+ s) d = true.
Proof.
  unfold Str.startswith. induction d as [|c d IH]; cbn.
  { by destruct s. }
  change (String c d +:+ s) with (String c (d +:+ s)). cbn [String.prefix].
  destruct (Ascii.ascii_dec c c); [apply IH|done].
Qed.

(** A placeholder lies under its own prefix. *)
Lemma keep_file_path_startswith d :
  Str.startswith (keep_file_path d) d = true.
Proof.
  unfold keep_file_path, Str.os_path_join. cbn.
  destruct (_ || _); apply startswith_app.
Qed.

(** The name [os.path.join] gives the placeholder. *)
Lemma keep_file_path_eq d :
  keep_file_path d
  = if Str.is_empty d || Str.endswith_sep d then d +:+ ".keep"
    else d +:+ "/.keep".
Proof.
  unfold keep_file_path, Str.os_path_join. cbn.
  destruct (_ || _); reflexivity.
Qed.

Lemma should_exclude_elem n d dirs :
  d ∈ dirs → Str.startswith n d = true → should_exclude n dirs = true.
Proof.
  induction dirs as [|d' dirs IH]; intros Hin Hpre; [by apply elem_of_nil in Hin|].
  cbn. apply elem_of_cons in Hin as [<-|Hin]; [by rewrite Hpre|].
  destruct (Str.startswith n d'); [done|by apply IH].
Qed.

(** Every placeholder is itself excluded. *)
Lemma keeps_excluded dirs :
  List.filter (λ n, negb (should_exclude n dirs)) (map keep_file_path dirs)
  = [].
Proof.
  assert (H : ∀ ds, ds ⊆ dirs →
    List.filter (λ n, negb (should_exclude n dirs)) (map keep_file_path ds)
    = []).
  { induction ds as [|d ds IH]; intros Hsub; [done|]. cbn.
    rewrite (should_exclude_elem _ d), IH; [done| |by apply Hsub; left|].
    - intros x Hx. apply Hsub. by right.
    - apply keep_file_path_startswith. }
  by apply H.
Qed.

(** When no copy failed, the copy loop keeps exactly the names that no
    prefix excludes, in order. *)
Lemma copied_names zr dirs items :
  (∀ m, m ∈ flat_map (item_log zr dirs) items → is_entry_error m = false) →
  map fst (flat_map (item_out zr dirs) items)
  = List.filter (λ n, negb (should_exclude n dirs)) (map filename items).
Proof.
  induction items as [|item items IH]; intros Hlog; [done|].
  cbn in *. rewrite map_app, IH.
  2:{ intros m Hm. apply Hlog, elem_of_app. by right. }
  assert (Hhere : ∀ m, m ∈ item_log zr dirs item → is_entry_error m = false).
  { intros m Hm. apply Hlog, elem_of_app. by left. }
  unfold item_out, item_log in *.
  destruct (should_exclude (filename item) dirs); cbn; [done|].
  destruct (NameToInfo zr !! filename item) as [z|].
  - destruct (intact z); [done|].
    by specialize (Hhere _ (list_elem_of_here _ _)).
  - by specialize (Hhere _ (list_elem_of_here _ _)).
Qed.

(** The names the copy loop keeps are names that no prefix excludes. *)
Lemma copied_names_kept zr dirs items :
  List.filter (λ n, negb (should_exclude n dirs))
              (map fst (flat_map (item_out zr dirs) items))
  = map fst (flat_map (item_out zr dirs) items).
Proof.
  induction items as [|item items IH]; [done|].
  cbn. rewrite map_app, List.filter_app, IH. f_equal.
  unfold item_out.
  destruct (should_exclude (filename item) dirs) eqn:Hex; [done|].
  destruct (NameToInfo zr !! filename item) as [z|]; [|done].
  destruct (intact z); [|done]. cbn. by rewrite Hex.
Qed.

Lemma strip_out_names zr dirs :
  (∀ m, m ∈ strip_log zr dirs → is_entry_error m = false) →
  map fst (strip_out zr dirs)
  = List.filter (λ n, negb (should_exclude n dirs))
                (map filename (infolist zr))
    ++ map keep_file_path dirs.
Proof.
  intros Hlog. unfold strip_out. rewrite map_app, map_map. cbn.
  rewrite copied_names; [done|].
  intros m Hm. apply Hlog. unfold strip_log. apply elem_of_app. by left.
Qed.

(** ** Reading members by name *)

(** [NameToInfo] maps a name to a member of that name, when there is one:
    the later ones overwrite the earlier ones. *)
Lemma NameToInfo_foldl (cd : list member) (d0 : gmap string member) k :
  (∃ z, z ∈ cd ∧ filename z = k
        ∧ foldl (λ d x, <[filename x := x]> d) d0 cd !! k = Some z)
  ∨ ((k ∉ map filename cd)
     ∧ foldl (λ d x, <[filename x := x]> d) d0 cd !! k = d0 !! k).
Proof.
  revert d0. induction cd as [|x cd IH]; intros d0; cbn.
  { right. split; [apply not_elem_of_nil|done]. }
  destruct (IH (<[filename x := x]> d0)) as [(z & Hz & Hk & Hl)|(Hnin & Hl)].
  - left. exists z. split_and!; [by right|done..].
  - destruct (decide (filename x = k)) as [Hx|Hx].
    + left. exists x. split_and!; [by left|done|].
      by rewrite Hl, <- Hx, lookup_insert_eq.
    + right. split.
      * intros [?|?]%elem_of_cons; [congruence|done].
      * by rewrite Hl, lookup_insert_ne.
Qed.

Lemma NameToInfo_found cd item :
  item ∈ cd →
  ∃ z, z ∈ cd ∧ filename z = filename item
       ∧ NameToInfo (open_reader cd) !! filename item = Some z.
Proof.
  intros Hin. cbn.
  destruct (NameToInfo_foldl cd ∅ (filename item)) as [?|[Hnin _]]; [done|].
  destruct Hnin. by apply (list_elem_of_fmap_2 filename).
Qed.

Lemma filename_inj_on (cd : list member) x y :
  NoDup (map filename cd) → x ∈ cd → y ∈ cd → filename x = filename y → x = y.
Proof.
  induction cd as [|z cd IH]; intros Hnd Hx Hy Heq.
  { by apply elem_of_nil in Hx. }
  cbn in Hnd. apply NoDup_cons in Hnd as [Hz Hnd].
  apply elem_of_cons in Hx as [->|Hx], Hy as [->|Hy]; [done| | |by apply IH].
  - destruct Hz. rewrite Heq. by apply (list_elem_of_fmap_2 filename).
  - destruct Hz. rewrite <- Heq. by apply (list_elem_of_fmap_2 filename).
Qed.

(** In an archive whose members are all readable, no copy fails. *)
Lemma item_log_intact cd dirs item :
  (∀ z, z ∈ cd → intact z = true) →
  item ∈ cd →
  item_log (open_reader cd) dirs item = [].
Proof.
  intros Hok Hin. unfold item_log.
  destruct (should_exclude _ _); [done|].
  destruct (NameToInfo_found cd item Hin) as (z & Hz & _ & ->).
  by rewrite (Hok z Hz).
Qed.

Lemma strip_log_intact cd dirs m :
  (∀ z, z ∈ cd → intact z = true) →
  m ∈ strip_log (open_reader cd) dirs → is_entry_error m = false.
Proof.
  intros Hok. unfold strip_log. rewrite elem_of_app. intros [H|H].
  - apply list_elem_of_In, in_flat_map in H as (item & Hitem & H).
    apply list_elem_of_In in Hitem.
    rewrite (item_log_intact cd dirs item Hok Hitem) in H. destruct H.
  - by apply list_elem_of_fmap in H as (d & -> & _).
Qed.

(** With pairwise distinct names and readable members, every member that
    no prefix excludes is copied with its own bytes. *)
Lemma rewrite_members_distinct_names cd dirs :
  NoDup (map filename cd) →
  (∀ z, z ∈ cd → intact z = true) →
  rewrite_members cd dirs
  = map (λ m, (filename m, data m))
        (List.filter (λ m, negb (should_exclude (filename m) dirs)) cd)
    ++ map (λ d, (keep_file_path d, [])) dirs.
Proof.
  intros Hnd Hok. rewrite rewrite_members_eq. unfold strip_out. f_equal.
  change (infolist (open_reader cd)) with cd.
  assert (H : ∀ items, items ⊆ cd →
    flat_map (item_out (open_reader cd) dirs) items
    = map (λ m, (filename m, data m))
          (List.filter (λ m, negb (should_exclude (filename m) dirs)) items)).
  { induction items as [|item items IH]; intros Hsub; [done|].
    cbn [flat_map List.filter].
    rewrite IH by (intros x Hx; apply Hsub; by right).
    assert (Hitem : item ∈ cd) by (apply Hsub; by left).
    unfold item_out at 1.
    destruct (should_exclude (filename item) dirs); cbn [negb]; [done|].
    destruct (NameToInfo_found cd item Hitem) as (z & Hz & Hname & ->).
    assert (z = item) as -> by by apply (filename_inj_on cd).
    by rewrite (Hok item Hitem). }
  by apply H.
Qed.

(** ** Stripping twice *)

Lemma reopen_intact written z : z ∈ reopen written → intact z = true.
Proof. unfold reopen. by intros (nb & -> & _)%list_elem_of_fmap. Qed.

Lemma forallb_keeps_excluded dirs :
  forallb (λ d, should_exclude (keep_file_path d) dirs) dirs = true.
Proof.
  apply forallb_forall. intros d Hd%list_elem_of_In.
  apply (should_exclude_elem _ d); [done|apply keep_file_path_startswith].
Qed.

(** What the copy loop writes is never under a prefix. *)
Lemma copied_not_excluded zr dirs items :
  Forall (λ nb, should_exclude nb.1 dirs = false)
         (flat_map (item_out zr dirs) items).
Proof.
  induction items as [|item items IH]; [constructor|].
  cbn. apply Forall_app. split; [|done].
  unfold item_out.
  destruct (should_exclude (filename item) dirs) eqn:Hex; [constructor|].
  destruct (NameToInfo zr !! filename item) as [z|]; [|constructor].
  destruct (intact z); repeat constructor. done.
Qed.

(** The names the copy loop keeps when it runs on a rewritten archive read
    back: the names the first run kept, the placeholders being dropped. *)
Lemma copied_names_twice cd dirs :
  map fst (flat_map
             (item_out (open_reader (reopen (strip_out (open_reader cd) dirs)))
                       dirs)
             (reopen (strip_out (open_reader cd) dirs)))
  = map fst (flat_map (item_out (open_reader cd) dirs) cd).
Proof.
  set (out := strip_out (open_reader cd) dirs).
  rewrite copied_names.
  2:{ intros m Hm. apply (strip_log_intact (reopen out) dirs).
      - apply reopen_intact.
      - unfold strip_log. apply elem_of_app. by left. }
  replace (map filename (reopen out)) with (map fst out).
  2:{ unfold reopen. by rewrite map_map. }
  unfold out, strip_out. rewrite !map_app, List.filter_app, !map_map. cbn.
  change (map (λ x, keep_file_path x) dirs) with (map keep_file_path dirs).
  by rewrite copied_names_kept, keeps_excluded, app_nil_r.
Qed.

(** C10. The strip is idempotent on entry names, for the reason the claim
    gives.  A first strip writes what it copies, none of it under a prefix,
    and then one empty placeholder per prefix, in prefix order; every
    placeholder starts with its own prefix, so the exclusion test drops it.
    A second strip, run on the rewritten archive read back, therefore
    copies entries of the same names as the first did, none of the
    placeholders, and then writes one placeholder per prefix again: the
    names of the two rewritten archives are the same. *)
Theorem strip_names_idempotent cd dirs :
  ∃ copied1 copied2,
    rewrite_members cd dirs
      = copied1 ++ map (λ d, (keep_file_path d, [])) dirs
    ∧ rewrite_members (reopen (rewrite_members cd dirs)) dirs
      = copied2 ++ map (λ d, (keep_file_path d, [])) dirs
    ∧ map fst copied2 = map fst copied1
    ∧ Forall (λ nb, should_exclude nb.1 dirs = false) copied1
    ∧ Forall (λ d, Str.startswith (keep_file_path d) d = true
                   ∧ should_exclude (keep_file_path d) dirs = true) dirs
    ∧ map fst (rewrite_members (reopen (rewrite_members cd dirs)) dirs)
      = map fst (rewrite_members cd dirs).
Proof.
  exists (flat_map (item_out (open_reader cd) dirs) cd).
  exists (flat_map
            (item_out (open_reader (reopen (strip_out (open_reader cd) dirs)))
                      dirs)
            (reopen (strip_out (open_reader cd) dirs))).
  rewrite !rewrite_members_eq.
  split_and!.
  - done.
  - done.
  - apply copied_names_twice.
  - apply copied_not_excluded.
  - apply Forall_forall. intros d Hd. split.
    + apply keep_file_path_startswith.
    + apply (should_exclude_elem _ d); [done|apply keep_file_path_startswith].
  - unfold strip_out at 1 3. rewrite !map_app. f_equal.
    apply copied_names_twice.
Qed.

#[local] Arguments strip : simpl never.
#[local] Arguments strip_out : simpl never.
#[local] Arguments strip_log : simpl never.

(** Closes a branch of an operation in which the expected message was never
    printed. *)
Ltac not_printed :=
  let H := fresh in
  cbn; intros [= <- <-] H; cbn in H; absent_in H.

(** ** Backup-and-Strip *)

Section Backup.

Variable unzip : bytes → option (list member).
Variable zip_image : list (string * bytes) → bytes.

(** The successful run, step by step. *)
Lemma backup_pk3_modified_inv pk3_file backup_file dirs fs r w :
  run (backup_pk3 unzip zip_image pk3_file backup_file dirs) fs = (r, w) →
  Modified pk3_file ∈ stdout w →
  ∃ bs cd fs1 fs2 fs3,
    nodes fs !! pk3_file = Some (File bs)
    ∧ Os.copyfile pk3_file backup_file fs = inr fs1
    ∧ nodes fs1 !! pk3_file = Some (File bs)
    ∧ unzip bs = Some cd
    ∧ Os.create (temp_of pk3_file) fs1 = inr fs2
    ∧ Os.remove pk3_file
        (Os.store (temp_of pk3_file)
                  (zip_image (rewrite_members cd dirs)) fs2) = inr fs3
    ∧ Os.rename (temp_of pk3_file) pk3_file fs3 = inr (disk w)
    ∧ stdout w = warn_overwrite backup_file fs
                 ++ BackupCreated backup_file
                 :: strip_log (open_reader cd) dirs
                 ++ [FilesRemoved pk3_file; Modified pk3_file]
    ∧ r = Normal tt.
Proof.
  py_unfold. unfold warn_overwrite.
  destruct (Os.path_exists pk3_file fs) eqn:Hpk3; cbn.
  2:{ intros [= <- <-] H. cbn in H. absent_in H. }
  destruct (Os.copyfile pk3_file backup_file fs) as [e|fs1] eqn:Hcp.
  { destruct (Os.path_exists backup_file fs); cbn; rewrite Hcp; cbn;
      rewrite (copyfile_raises_OSError _ _ _ _ Hcp); cbn;
      intros [= <- <-] H; cbn in H; absent_in H. }
  destruct (copyfile_ok _ _ _ _ Hcp) as (Hne & _ & _ & bs & Hbs & Hfs1).
  assert (Hbs1 : nodes fs1 !! pk3_file = Some (File bs)).
  { rewrite Hfs1. cbn. by rewrite lookup_insert_ne. }
  destruct (Os.path_exists backup_file fs) eqn:Hbak; cbn; rewrite Hcp; cbn;
    rewrite Hbs1.
  all: destruct (unzip bs) as [cd|] eqn:Hcd; cbn.
  all: try (destruct (Os.remove backup_file fs1); not_printed).
  all: destruct (Os.create (temp_of pk3_file) fs1) as [e|fs2] eqn:Hcr; cbn.
  all: try (destruct (is_BadZipFile e); cbn;
            destruct (Os.remove backup_file fs1); not_printed).
  all: rewrite strip_run; cbn.
  all: rewrite <- rewrite_members_eq.
  all: destruct (Os.remove pk3_file _) as [e|fs3] eqn:Hrm; cbn;
         [not_printed|].
  all: destruct (Os.rename (temp_of pk3_file) pk3_file _)
         as [e|fs4] eqn:Hmv; cbn; [not_printed|].
  all: intros [= <- <-] _; cbn.
  all: eexists bs, cd, fs1, fs2, _; split_and!; try done.
  all: by rewrite <- app_assoc.
Qed.

(** Where the files are after the successful run. *)
Lemma backup_pk3_modified_disk pk3_file backup_file dirs fs r w :
  run (backup_pk3 unzip zip_image pk3_file backup_file dirs) fs = (r, w) →
  Modified pk3_file ∈ stdout w →
  ∃ bs cd,
    nodes fs !! pk3_file = Some (File bs)
    ∧ unzip bs = Some cd
    ∧ pk3_file ≠ backup_file
    ∧ nodes (disk w) !! pk3_file
      = Some (File (zip_image (rewrite_members cd dirs)))
    ∧ nodes (disk w) !! temp_of pk3_file = None
    ∧ (backup_file ≠ temp_of pk3_file →
       nodes (disk w) !! backup_file = Some (File bs))
    ∧ stdout w = warn_overwrite backup_file fs
                 ++ BackupCreated backup_file
                 :: strip_log (open_reader cd) dirs
                 ++ [FilesRemoved pk3_file; Modified pk3_file].
Proof.
  intros Hrun Hok.
  destruct (backup_pk3_modified_inv _ _ _ _ _ _ Hrun Hok)
    as (bs & cd & fs1 & fs2 & fs3 & Hbs & Hcp & _ & Hcd & Hcr & Hrm & Hmv
        & Hout & _).
  destruct (copyfile_ok _ _ _ _ Hcp) as (Hne & _ & _ & bs' & Hbs' & ->).
  destruct (create_ok _ _ _ Hcr) as (-> & _ & _).
  destruct (remove_ok _ _ _ Hrm) as (-> & _ & _).
  pose proof (temp_of_fresh pk3_file) as Htmp.
  destruct (rename_ok_fresh _ _ _ _ Hmv) as (_ & _ & n & Hn & Hw).
  { cbn. apply lookup_delete_eq. }
  cbn in Hn. rewrite lookup_delete_ne, lookup_insert_eq in Hn by done.
  simplify_eq. exists bs, cd. rewrite Hw. cbn.
  split_and!; try done.
  - apply lookup_insert_eq.
  - rewrite lookup_insert_ne by done. apply lookup_delete_eq.
  - intros Hbt. rewrite lookup_insert_ne by done.
    rewrite !lookup_delete_ne by done.
    rewrite !lookup_insert_ne by done. apply lookup_insert_eq.
Qed.


#[local] Abbreviation backup := (backup_pk3 unzip zip_image).

(** C5. When the archive path does not exist, [backup_pk3] reports
    NotFoundError (the message of line 36) and does nothing else: the
    filesystem after the call is the filesystem before it (no backup, no
    temporary file, no file changed). *)
Theorem backup_pk3_archive_missing pk3_file backup_file dirs fs :
  Os.path_exists pk3_file fs = false →
  run (backup pk3_file backup_file dirs) fs
    = (Normal tt, World fs [ErrFileNotFound pk3_file] [])
  ∧ kind_of (ErrFileNotFound pk3_file) = Some NotFoundError.
Proof.
  intros Hmiss. split; [|done].
  py_unfold. by rewrite Hmiss.
Qed.

(** The rollback of lines 85-88 when it goes through.  When the archive is
    a file that is not a valid ZIP archive, and the backup could be written
    and can be removed again (the backup path is not the archive path, is
    not a directory, and its directory entry is not frozen), [backup_pk3]
    reports FormatError (the message of line 86), deletes the backup it has
    just written and stops: the archive keeps its bytes, nothing is left at
    the backup path and no temporary file appears.  When the backup was
    created by this call, the filesystem is back to what it was.  (When an
    older backup cannot be removed the rollback does not go through.) *)
Theorem backup_pk3_not_a_zip pk3_file backup_file dirs fs bs :
  nodes fs !! pk3_file = Some (File bs) →
  unzip bs = None →
  pk3_file ≠ backup_file →
  nodes fs !! backup_file ≠ Some Dir →
  backup_file ∉ frozen fs →
  run (backup pk3_file backup_file dirs) fs
    = (Normal tt,
       World (MkFS (delete backup_file (nodes fs)) (frozen fs))
             (warn_overwrite backup_file fs
              ++ [BackupCreated backup_file; ErrNotZip pk3_file])
             [])
  ∧ kind_of (ErrNotZip pk3_file) = Some FormatError
  ∧ delete backup_file (nodes fs) !! pk3_file = Some (File bs)
  ∧ delete backup_file (nodes fs) !! backup_file = None
  ∧ delete backup_file (nodes fs) !! temp_of pk3_file
    = (if bool_decide (temp_of pk3_file = backup_file) then None
       else nodes fs !! temp_of pk3_file)
  ∧ (nodes fs !! backup_file = None →
     MkFS (delete backup_file (nodes fs)) (frozen fs) = fs).
Proof.
  intros Hbs Hbad Hne Hdir Hfr.
  split_and!; [|done|by rewrite lookup_delete_ne|apply lookup_delete_eq| |].
  2:{ case_bool_decide as Heq; [rewrite Heq; apply lookup_delete_eq|].
      by rewrite lookup_delete_ne. }
  2:{ intros Hfree. destruct fs as [ns fr]. cbn in *. f_equal.
      by apply delete_id. }
  assert (Hcp : Os.copyfile pk3_file backup_file fs
                = inr (MkFS (<[backup_file := File bs]> (nodes fs))
                            (frozen fs))).
  { unfold Os.copyfile, Os.create. rewrite bool_decide_eq_false_2 by done.
    rewrite Hbs.
    destruct (nodes fs !! backup_file) as [[?|]|]; [|done|].
    - unfold Os.store. cbn. by rewrite insert_insert_eq.
    - rewrite bool_decide_eq_false_2 by done.
      unfold Os.store. cbn. by rewrite insert_insert_eq. }
  assert (Hrm : Os.remove backup_file
                  (MkFS (<[backup_file := File bs]> (nodes fs)) (frozen fs))
                = inr (MkFS (delete backup_file (nodes fs)) (frozen fs))).
  { unfold Os.remove. cbn. rewrite lookup_insert_eq.
    rewrite bool_decide_eq_false_2 by done. by rewrite delete_insert_eq. }
  py_unfold. unfold warn_overwrite.
  rewrite (proj2 (path_exists_true pk3_file fs)) by (by rewrite Hbs).
  cbn.
  destruct (Os.path_exists backup_file fs); cbn; rewrite Hcp; cbn;
    rewrite lookup_insert_ne, Hbs, Hbad by done; cbn; by rewrite Hrm.
Qed.

(** C1, as the code has it. After a successful [backup_pk3] (the one that
    prints the message of line 98) in which no entry and no placeholder
    failed, the archive path holds the archive written from the members
    [rewrite_members cd dirs]; their names are, in order, the names of the
    source that start with no prefix, then one placeholder per prefix,
    named by [os.path.join(prefix, '.keep')].  That name is
    [prefix + ".keep"] when the prefix is empty or ends with a slash, and
    [prefix + "/.keep"] otherwise; in the first case the names are the
    ones the specification announces. *)
Theorem backup_pk3_entry_names pk3_file backup_file dirs fs :
  Modified pk3_file ∈ printed_by (backup pk3_file backup_file dirs) fs →
  (∀ m, m ∈ printed_by (backup pk3_file backup_file dirs) fs →
        is_entry_error m = false) →
  ∃ bs cd,
    nodes fs !! pk3_file = Some (File bs)
    ∧ unzip bs = Some cd
    ∧ nodes (disk_after (backup pk3_file backup_file dirs) fs) !! pk3_file
      = Some (File (zip_image (rewrite_members cd dirs)))
    ∧ map fst (rewrite_members cd dirs)
      = List.filter (λ n, negb (should_exclude n dirs)) (map filename cd)
        ++ map keep_file_path dirs
    ∧ map keep_file_path dirs
      = map (λ d, if Str.is_empty d || Str.endswith_sep d
                  then d +:+ ".keep" else d +:+ "/.keep") dirs
    ∧ (forallb (λ d, Str.is_empty d || Str.endswith_sep d) dirs = true →
       map fst (rewrite_members cd dirs) = spec_names cd dirs).
Proof.
  unfold printed_by, disk_after.
  destruct (run (backup pk3_file backup_file dirs) fs) as [r w] eqn:Hrun.
  cbn. intros Hok Hclean.
  destruct (backup_pk3_modified_disk _ _ _ _ _ _ Hrun Hok)
    as (bs & cd & Hbs & Hcd & _ & Hnew & _ & _ & Hout).
  assert (Hnames : map fst (rewrite_members cd dirs)
    = List.filter (λ n, negb (should_exclude n dirs)) (map filename cd)
      ++ map keep_file_path dirs).
  { rewrite rewrite_members_eq. apply strip_out_names.
    intros m Hm. apply Hclean. rewrite Hout.
    apply elem_of_app. right. right. apply elem_of_app. by left. }
  exists bs, cd. split_and!; [done..| |].
  - apply map_ext. intros d. apply keep_file_path_eq.
  - intros Hall. rewrite Hnames. unfold spec_names. f_equal.
    apply map_ext_in. intros d Hd. rewrite keep_file_path_eq.
    rewrite forallb_forall in Hall. by rewrite (Hall d Hd).
Qed.

(** C2. Round trip: when [backup_pk3] succeeds on an archive whose bytes
    are [bs], and [restore_pk3] with the same two paths then succeeds on
    the filesystem the backup left, the archive path holds the bytes [bs]
    again. *)
Theorem backup_then_restore_roundtrip pk3_file backup_file dirs fs bs :
  nodes fs !! pk3_file = Some (File bs) →
  Modified pk3_file ∈ printed_by (backup pk3_file backup_file dirs) fs →
  Restored pk3_file
    ∈ printed_by (restore_pk3 pk3_file backup_file)
                 (disk_after (backup pk3_file backup_file dirs) fs) →
  nodes (disk_after (restore_pk3 pk3_file backup_file)
           (disk_after (backup pk3_file backup_file dirs) fs)) !! pk3_file
  = Some (File bs).
Proof.
  unfold printed_by, disk_after.
  destruct (run (backup pk3_file backup_file dirs) fs) as [r w] eqn:Hrun.
  cbn. intros Hbs Hok.
  destruct (backup_pk3_modified_disk _ _ _ _ _ _ Hrun Hok)
    as (bs' & cd & Hbs' & _ & _ & _ & Htmp & Hbak & _).
  destruct (run (restore_pk3 pk3_file backup_file) (disk w))
    as [r2 w2] eqn:Hrun2.
  cbn. intros Hok2.
  destruct (restore_pk3_restored_inv _ _ _ _ _ Hrun2 Hok2)
    as (_ & -> & Hsome).
  destruct (decide (backup_file = temp_of pk3_file)) as [->|Hbt].
  { rewrite Htmp in Hsome. by destruct Hsome. }
  rewrite Hbak by done. congruence.
Qed.

(** On the paths of the model (no NUL character) an exception leaves
    [backup_pk3] only from the rollback: the backup was written, the
    rewrite failed, and [os.remove(backup_file)] in the handler of line 87
    or 91 raised. *)
Lemma backup_pk3_raised_inv pk3_file backup_file dirs fs e w :
  run (backup pk3_file backup_file dirs) fs = (Raised e, w) →
  ∃ fs1 m,
    Os.copyfile pk3_file backup_file fs = inr fs1
    ∧ Os.remove backup_file fs1 = inl e
    ∧ disk w = fs1
    ∧ last (stdout w) = Some m
    ∧ (m = ErrNotZip pk3_file ∨ ∃ e', m = ErrModification e').
Proof.
  py_unfold.
  destruct (Os.path_exists pk3_file fs) eqn:Hpk3; cbn; [|done].
  destruct (Os.copyfile pk3_file backup_file fs) as [e0|fs1] eqn:Hcp.
  { destruct (Os.path_exists backup_file fs); cbn; rewrite Hcp; cbn;
      by rewrite (copyfile_raises_OSError _ _ _ _ Hcp). }
  destruct (copyfile_ok _ _ _ _ Hcp) as (Hne & _ & _ & bs & Hbs & Hfs1).
  assert (Hbs1 : nodes fs1 !! pk3_file = Some (File bs)).
  { rewrite Hfs1. cbn. by rewrite lookup_insert_ne. }
  destruct (Os.path_exists backup_file fs) eqn:Hbak; cbn; rewrite Hcp; cbn;
    rewrite Hbs1.
  all: destruct (unzip bs) as [cd|] eqn:Hcd; cbn.
  all: try (destruct (Os.remove backup_file fs1) as [e1|?] eqn:Hrb; cbn;
            [|done]; intros [= <- <-]; cbn; eauto 10).
  all: destruct (Os.create (temp_of pk3_file) fs1) as [e0|fs2] eqn:Hcr; cbn.
  all: try (destruct (is_BadZipFile e0); cbn;
            destruct (Os.remove backup_file fs1) as [e1|?] eqn:Hrb; cbn;
            [|done| |done]; intros [= <- <-]; cbn; eauto 10).
  all: rewrite strip_run; cbn.
  all: destruct (Os.remove pk3_file _) as [e0|fs3] eqn:Hrm; cbn; [done|].
  all: by destruct (Os.rename (temp_of pk3_file) pk3_file _).
Qed.

(** So an exception leaves [backup_pk3] only when an older backup, which
    the call has overwritten, cannot be removed. *)
Lemma backup_pk3_raised_frozen pk3_file backup_file dirs fs e w :
  run (backup pk3_file backup_file dirs) fs = (Raised e, w) →
  e = PermissionError
  ∧ backup_file ∈ frozen fs
  ∧ is_Some (nodes fs !! backup_file).
Proof.
  intros Hrun.
  destruct (backup_pk3_raised_inv _ _ _ _ _ _ Hrun)
    as (fs1 & m & Hcp & Hrm & _).
  destruct (copyfile_ok _ _ _ _ Hcp) as (_ & _ & Hcreate & bs & _ & ->).
  unfold Os.remove in Hrm. cbn in Hrm. rewrite lookup_insert_eq in Hrm.
  case_bool_decide as Hfr; simplify_eq. split_and!; [done..|].
  destruct (nodes fs !! backup_file) eqn:Hb; [done|].
  by destruct (Hcreate eq_refl).
Qed.

End Backup.

(** ** The operations at work *)

(** The scenario of the specification: the two configured prefixes are
    stripped and replaced by their placeholders. *)
Example strip_scenario :
  map fst (rewrite_members Demo.assets Demo.DIRS_TO_CLEAR)
  = [ "a.txt"; "readme.md";
      "ext_data/mb2/character/.keep"; "ext_data/mb2/teamconfig/.keep" ].
Proof. reflexivity. Qed.

(** C3, at two members sharing a name. [zip_read.read(item.filename)] finds
    the member by name, and a name leads to the last member that bears it:
    both copies receive the bytes of the second member, the bytes of the
    first are lost. *)
Example same_name_members_share_bytes :
  rewrite_members Demo.twins Demo.DIRS_TO_CLEAR
  = [ ("notes.txt", Demo.st "second");
      ("notes.txt", Demo.st "second");
      ("ext_data/mb2/character/.keep", []);
      ("ext_data/mb2/teamconfig/.keep", []) ]
  ∧ printed_by (demo_backup "twins.pk3" "twins.pk3.bak" Demo.DIRS_TO_CLEAR)
               Demo.fs_twins
    = [ BackupCreated "twins.pk3.bak";
        AddedPlaceholder "ext_data/mb2/character/.keep";
        AddedPlaceholder "ext_data/mb2/teamconfig/.keep";
        FilesRemoved "twins.pk3"; Modified "twins.pk3" ]
  ∧ nodes (disk_after
             (demo_backup "twins.pk3" "twins.pk3.bak" Demo.DIRS_TO_CLEAR)
             Demo.fs_twins) !! "twins.pk3"
    = Some (File (Demo.zip_image
                    (rewrite_members Demo.twins Demo.DIRS_TO_CLEAR))).
Proof. split_and!; vm_compute; reflexivity. Qed.

(** A member that cannot be read is skipped and the operation goes on to
    its successful end (lines 69-72). *)
Example unreadable_member_is_skipped :
  printed_by (demo_backup "damaged.pk3" "damaged.pk3.bak" Demo.DIRS_TO_CLEAR)
             Demo.fs_damaged
  = [ BackupCreated "damaged.pk3.bak";
      ErrCopying "a.txt" BadZipFile;
      AddedPlaceholder "ext_data/mb2/character/.keep";
      AddedPlaceholder "ext_data/mb2/teamconfig/.keep";
      FilesRemoved "damaged.pk3"; Modified "damaged.pk3" ]
  ∧ map fst (rewrite_members Demo.damaged Demo.DIRS_TO_CLEAR)
    = [ "readme.md";
        "ext_data/mb2/character/.keep"; "ext_data/mb2/teamconfig/.keep" ].
Proof. split; vm_compute; reflexivity. Qed.

(** C9, at a text file named like an archive whose older backup cannot be
    removed: the backup is overwritten, the archive is found not to be a ZIP
    file, the message of line 86 is printed, and [os.remove(backup_file)] of
    line 87 raises inside the handler: the exception leaves [backup_pk3]. *)
Example backup_pk3_rollback_raises :
  run (demo_backup "notes.pk3" "notes.pk3.bak" Demo.DIRS_TO_CLEAR)
      Demo.fs_text
  = (Raised PermissionError,
     World (MkFS {[ "notes.pk3" := File (Demo.st "plain text");
                    "notes.pk3.bak" := File (Demo.st "plain text") ]}
                 {[ "notes.pk3.bak" ]})
           [ WarnBackupExists "notes.pk3.bak";
             BackupCreated "notes.pk3.bak";
             ErrNotZip "notes.pk3" ]
           []).
Proof. vm_compute. reflexivity. Qed.

(** C4, at the same text file and older backup: the archive cannot be
    opened as a ZIP archive and FormatError is reported (line 86), but the
    rollback of line 87 does not delete the backup.  [os.remove] raises,
    the exception leaves [backup_pk3], and the backup path still holds a
    file: the copy of the text file that has replaced the older backup.
    The archive keeps its bytes. *)
Example backup_pk3_not_a_zip_backup_stays :
  Demo.unzip (Demo.st "plain text") = None
  ∧ nodes Demo.fs_text !! "notes.pk3.bak"
    = Some (File (Demo.st "old backup"))
  ∧ printed_by (demo_backup "notes.pk3" "notes.pk3.bak" Demo.DIRS_TO_CLEAR)
               Demo.fs_text
    = [ WarnBackupExists "notes.pk3.bak";
        BackupCreated "notes.pk3.bak";
        ErrNotZip "notes.pk3" ]
  ∧ kind_of (ErrNotZip "notes.pk3") = Some FormatError
  ∧ outcome (demo_backup "notes.pk3" "notes.pk3.bak" Demo.DIRS_TO_CLEAR)
            Demo.fs_text
    = Raised PermissionError
  ∧ nodes (disk_after
             (demo_backup "notes.pk3" "notes.pk3.bak" Demo.DIRS_TO_CLEAR)
             Demo.fs_text) !! "notes.pk3.bak"
    = Some (File (Demo.st "plain text"))
  ∧ nodes (disk_after
             (demo_backup "notes.pk3" "notes.pk3.bak" Demo.DIRS_TO_CLEAR)
             Demo.fs_text) !! "notes.pk3"
    = Some (File (Demo.st "plain text")).
Proof. split_and!; vm_compute; reflexivity. Qed.

(** C1, as the specification states it, at the prefix [docs]: the run
    succeeds without any entry error, and the placeholder it writes is
    [docs/.keep], not [docs.keep]. *)
Lemma spec_names_counterexample :
  Modified "MBAssets3.pk3"
    ∈ printed_by (demo_backup "MBAssets3.pk3" "MBAssets3.pk3.bak" ["docs"])
                 Demo.fs0
  ∧ Forall (λ m, is_entry_error m = false)
      (printed_by (demo_backup "MBAssets3.pk3" "MBAssets3.pk3.bak" ["docs"])
                  Demo.fs0)
  ∧ nodes (disk_after
             (demo_backup "MBAssets3.pk3" "MBAssets3.pk3.bak" ["docs"])
             Demo.fs0) !! "MBAssets3.pk3"
    = Some (File (Demo.zip_image (rewrite_members Demo.assets ["docs"])))
  ∧ map fst (rewrite_members Demo.assets ["docs"])
    = [ "a.txt"; "ext_data/mb2/character/foo.cfg";
        "ext_data/mb2/teamconfig/bar.cfg"; "readme.md"; "docs/.keep" ]
  ∧ spec_names Demo.assets ["docs"]
    = [ "a.txt"; "ext_data/mb2/character/foo.cfg";
        "ext_data/mb2/teamconfig/bar.cfg"; "readme.md"; "docs.keep" ]
  ∧ ¬ (∀ n, n ∈ map fst (rewrite_members Demo.assets ["docs"])
            ↔ n ∈ spec_names Demo.assets ["docs"]).
Proof.
  split_and!.
  - vm_compute. repeat constructor.
  - vm_compute. repeat constructor.
  - vm_compute. reflexivity.
  - vm_compute. reflexivity.
  - vm_compute. reflexivity.
  - intros H. specialize (H "docs.keep").
    assert (Hin : "docs.keep" ∈ spec_names Demo.assets ["docs"]).
    { vm_compute. repeat constructor. }
    apply H in Hin. vm_compute in Hin. absent_in Hin.
Qed.

(** ** The theorems at concrete inputs *)

Lemma backup_pk3_archive_missing_witness :
  Os.path_exists "missing.pk3" Demo.fs0 = false
  ∧ run (demo_backup "missing.pk3" "missing.pk3.bak" Demo.DIRS_TO_CLEAR)
        Demo.fs0
    = (Normal tt, World Demo.fs0 [ErrFileNotFound "missing.pk3"] [])
  ∧ kind_of (ErrFileNotFound "missing.pk3") = Some NotFoundError.
Proof.
  split; [vm_compute; reflexivity|].
  apply (backup_pk3_archive_missing Demo.unzip Demo.zip_image).
  vm_compute; reflexivity.
Defined.

Lemma backup_pk3_not_a_zip_witness :
  Demo.unzip (Demo.st "plain text") = None
  ∧ outcome (demo_backup "notes.pk3" "notes.pk3.bak" Demo.DIRS_TO_CLEAR)
            Demo.fs_text_alone
    = Normal tt
  ∧ printed_by (demo_backup "notes.pk3" "notes.pk3.bak" Demo.DIRS_TO_CLEAR)
               Demo.fs_text_alone
    = [BackupCreated "notes.pk3.bak"; ErrNotZip "notes.pk3"]
  ∧ disk_after (demo_backup "notes.pk3" "notes.pk3.bak" Demo.DIRS_TO_CLEAR)
               Demo.fs_text_alone
    = Demo.fs_text_alone.
Proof.
  split; [vm_compute; reflexivity|].
  destruct (backup_pk3_not_a_zip Demo.unzip Demo.zip_image
              "notes.pk3" "notes.pk3.bak" Demo.DIRS_TO_CLEAR
              Demo.fs_text_alone (Demo.st "plain text")) as (Hrun & _).
  - vm_compute; reflexivity.
  - vm_compute; reflexivity.
  - discriminate.
  - vm_compute; discriminate.
  - apply not_elem_of_empty.
  - unfold outcome, printed_by, disk_after. rewrite Hrun.
    split_and!; vm_compute; reflexivity.
Defined.

Lemma backup_pk3_entry_names_witness :
  ∃ bs cd,
    nodes Demo.fs0 !! "MBAssets3.pk3" = Some (File bs)
    ∧ Demo.unzip bs = Some cd
    ∧ nodes (disk_after
               (demo_backup "MBAssets3.pk3" "MBAssets3.pk3.bak"
                            Demo.DIRS_TO_CLEAR) Demo.fs0) !! "MBAssets3.pk3"
      = Some (File (Demo.zip_image (rewrite_members cd Demo.DIRS_TO_CLEAR)))
    ∧ map fst (rewrite_members cd Demo.DIRS_TO_CLEAR)
      = List.filter (λ n, negb (should_exclude n Demo.DIRS_TO_CLEAR))
                    (map filename cd)
        ++ map keep_file_path Demo.DIRS_TO_CLEAR
    ∧ map keep_file_path Demo.DIRS_TO_CLEAR
      = map (λ d, if Str.is_empty d || Str.endswith_sep d
                  then d +:+ ".keep" else d +:+ "/.keep")
            Demo.DIRS_TO_CLEAR
    ∧ (forallb (λ d, Str.is_empty d || Str.endswith_sep d)
               Demo.DIRS_TO_CLEAR = true →
       map fst (rewrite_members cd Demo.DIRS_TO_CLEAR)
       = spec_names cd Demo.DIRS_TO_CLEAR).
Proof.
  apply (backup_pk3_entry_names Demo.unzip Demo.zip_image
           "MBAssets3.pk3" "MBAssets3.pk3.bak" Demo.DIRS_TO_CLEAR Demo.fs0).
  - vm_compute. repeat constructor.
  - apply Forall_forall. vm_compute. repeat constructor.
Defined.

Lemma backup_then_restore_roundtrip_witness :
  nodes Demo.fs0 !! "MBAssets3.pk3" = Some (File Demo.assets_bytes)
  ∧ nodes (disk_after (restore_pk3 "MBAssets3.pk3" "MBAssets3.pk3.bak")
             (disk_after
                (demo_backup "MBAssets3.pk3" "MBAssets3.pk3.bak"
                             Demo.DIRS_TO_CLEAR) Demo.fs0)) !! "MBAssets3.pk3"
    = Some (File Demo.assets_bytes).
Proof.
  split; [vm_compute; reflexivity|].
  apply (backup_then_restore_roundtrip Demo.unzip Demo.zip_image).
  - vm_compute; reflexivity.
  - vm_compute. repeat constructor.
  - vm_compute. repeat constructor.
Defined.

Lemma restore_pk3_backup_missing_witness :
  Os.path_exists "MBAssets3.pk3.bak" Demo.fs0 = false
  ∧ run (restore_pk3 "MBAssets3.pk3" "MBAssets3.pk3.bak") Demo.fs0
    = (Normal tt, World Demo.fs0 [ErrBackupNotFound "MBAssets3.pk3.bak"] [])
  ∧ kind_of (ErrBackupNotFound "MBAssets3.pk3.bak") = Some NotFoundError.
Proof.
  split; [vm_compute; reflexivity|].
  apply restore_pk3_backup_missing. vm_compute; reflexivity.
Defined.

Lemma restore_pk3_remove_fails_witness :
  Os.remove "MBAssets3.pk3" Demo.fs_held = inl PermissionError
  ∧ run (restore_pk3 "MBAssets3.pk3" "MBAssets3.pk3.bak") Demo.fs_held
    = (Normal tt,
       World Demo.fs_held
             [Removing "MBAssets3.pk3";
              ErrRemoving "MBAssets3.pk3" PermissionError] [])
  ∧ kind_of (ErrRemoving "MBAssets3.pk3" PermissionError) = Some IOError
  ∧ is_Some (nodes Demo.fs_held !! "MBAssets3.pk3").
Proof.
  split; [vm_compute; reflexivity|].
  apply restore_pk3_remove_fails; vm_compute; reflexivity.
Defined.

Lemma restore_pk3_consumes_backup_witness :
  nodes (disk_after (restore_pk3 "MBAssets3.pk3" "MBAssets3.pk3.bak")
                    Demo.fs_stripped) !! "MBAssets3.pk3.bak" = None
  ∧ nodes (disk_after (restore_pk3 "MBAssets3.pk3" "MBAssets3.pk3.bak")
                      Demo.fs_stripped) !! "MBAssets3.pk3"
    = nodes Demo.fs_stripped !! "MBAssets3.pk3.bak"
  ∧ is_Some (nodes Demo.fs_stripped !! "MBAssets3.pk3.bak").
Proof.
  apply restore_pk3_consumes_backup. vm_compute. repeat constructor.
Defined.

(** ** Every outcome of [backup_pk3] and of [restore_pk3] *)

(** Closes a branch of an operation with the case [c] of its outcome
    relation, once the test on the second path is decided. *)
Ltac ends_with c :=
  let H := fresh in
  pose proof c as H;
  unfold rewritten_log, rewritten, warn_overwrite in H;
  repeat match goal with
         | Hb : Os.path_exists _ _ = _ |- _ => rewrite Hb in H
         end;
  cbn in H; exact H.

(** A call of [restore_pk3] ends in one of the four ways of
    [restore_run]. *)
Lemma restore_pk3_run pk3_file backup_file fs :
  restore_run pk3_file backup_file fs
    (run (restore_pk3 pk3_file backup_file) fs).
Proof.
  py_unfold.
  destruct (Os.path_exists backup_file fs) eqn:Hbak; cbn.
  2:{ by constructor. }
  destruct (Os.path_exists pk3_file fs) eqn:Hpk3; cbn.
  - destruct (Os.remove pk3_file fs) as [e|fs1] eqn:Hrm; cbn.
    { rewrite (remove_raises_OSError _ _ _ Hrm). cbn. by constructor. }
    assert (Hvac : vacated pk3_file fs fs1 [Removing pk3_file]).
    { right. eauto. }
    destruct (Os.rename backup_file pk3_file fs1) as [e|fs2] eqn:Hmv; cbn.
    + rewrite (rename_raises_OSError _ _ _ _ Hmv). cbn.
      exact (restore_rename_failed _ _ _ _ _ _ Hbak Hvac Hmv).
    + exact (restore_restored _ _ _ _ _ _ Hbak Hvac Hmv).
  - assert (Hvac : vacated pk3_file fs fs []).
    { left. eauto. }
    destruct (Os.rename backup_file pk3_file fs) as [e|fs2] eqn:Hmv; cbn.
    + rewrite (rename_raises_OSError _ _ _ _ Hmv). cbn.
      exact (restore_rename_failed _ _ _ _ _ _ Hbak Hvac Hmv).
    + exact (restore_restored _ _ _ _ _ _ Hbak Hvac Hmv).
Qed.

(** *** What the filesystem calls leave alone *)

Lemma same_outside_refl touched fs : same_outside touched fs fs.
Proof. by split. Qed.

Lemma same_outside_trans touched fs1 fs2 fs3 :
  same_outside touched fs1 fs2 → same_outside touched fs2 fs3 →
  same_outside touched fs1 fs3.
Proof.
  intros [Hf1 Hn1] [Hf2 Hn2]. split; [congruence|].
  intros q Hq. by rewrite Hn2, Hn1.
Qed.

Lemma store_same_outside touched p bs fs :
  p ∈ touched → same_outside touched fs (Os.store p bs fs).
Proof.
  intros Hp. split; [done|]. intros q Hq. cbn.
  apply lookup_insert_ne. by intros ->.
Qed.

Lemma create_same_outside touched p fs fs' :
  Os.create p fs = inr fs' → p ∈ touched → same_outside touched fs fs'.
Proof.
  intros (-> & _)%create_ok Hp. split; [done|]. intros q Hq. cbn.
  apply lookup_insert_ne. by intros ->.
Qed.

Lemma copyfile_same_outside touched src dst fs fs' :
  Os.copyfile src dst fs = inr fs' → dst ∈ touched →
  same_outside touched fs fs'.
Proof.
  intros (_ & _ & _ & bs & _ & ->)%copyfile_ok Hp.
  split; [done|]. intros q Hq. cbn. apply lookup_insert_ne. by intros ->.
Qed.

Lemma remove_same_outside touched p fs fs' :
  Os.remove p fs = inr fs' → p ∈ touched → same_outside touched fs fs'.
Proof.
  intros (-> & _)%remove_ok Hp. split; [done|]. intros q Hq. cbn.
  apply lookup_delete_ne. by intros ->.
Qed.

Lemma rename_same_outside touched src dst fs fs' :
  Os.rename src dst fs = inr fs' → src ∈ touched → dst ∈ touched →
  same_outside touched fs fs'.
Proof.
  unfold Os.rename. intros H Hsrc Hdst.
  destruct (nodes fs !! src) as [n|]; [|done].
  case_bool_decide; [simplify_eq; apply same_outside_refl|].
  destruct (_ || _); [done|].
  assert (fs' = MkFS (<[dst := n]> (delete src (nodes fs))) (frozen fs))
    as ->.
  { destruct n, (nodes fs !! dst) as [[?|]|]; by simplify_eq. }
  split; [done|]. intros q Hq. cbn.
  rewrite lookup_insert_ne, lookup_delete_ne; [done|by intros ->..].
Qed.

Lemma vacated_same_outside touched pk3_file fs fs1 log :
  vacated pk3_file fs fs1 log → pk3_file ∈ touched →
  same_outside touched fs fs1.
Proof.
  intros [(_ & -> & _)|(_ & Hrm & _)] Hp; [apply same_outside_refl|].
  by apply (remove_same_outside _ pk3_file).
Qed.

Lemma vacated_free pk3_file fs fs1 log :
  vacated pk3_file fs fs1 log → nodes fs1 !! pk3_file = None.
Proof.
  intros [(Hno & -> & _)|(_ & Hrm & _)]; [by apply path_exists_false|].
  destruct (remove_ok _ _ _ Hrm) as (-> & _). apply lookup_delete_eq.
Qed.

Lemma warn_overwrite_shape backup_file fs m :
  m ∈ warn_overwrite backup_file fs → m = WarnBackupExists backup_file.
Proof.
  unfold warn_overwrite. destruct (Os.path_exists _ _).
  - by intros ->%list_elem_of_singleton.
  - by intros ?%elem_of_nil.
Qed.

(** A message that none of the parts of a console can hold is not on it. *)
Ltac off_console H :=
  first
    [ apply elem_of_nil in H; destruct H
    | apply elem_of_cons in H as [H|H]; [discriminate H | off_console H]
    | apply elem_of_app in H as [H|H]; [off_console H | off_console H]
    | apply warn_overwrite_shape in H; discriminate H
    | apply strip_log_shape in H as [(? & ? & H)|(? & H)]; discriminate H ].



(** X2. When the backup path is not a directory, [restore_pk3] changes
    nothing but the archive path and the backup path: every other path
    keeps its node, and the frozen paths are the same.  (A directory at the
    backup path would be renamed with everything below it.) *)
Theorem restore_pk3_confined pk3_file backup_file fs :
  nodes fs !! backup_file ≠ Some Dir →
  same_outside [pk3_file; backup_file] fs
    (disk_after (restore_pk3 pk3_file backup_file) fs).
Proof.
  intros _. unfold disk_after.
  destruct (restore_pk3_run pk3_file backup_file fs)
    as [?|?|fs1 log e _ Hvac _|fs1 log fs2 _ Hvac Hmv]; cbn;
    try apply same_outside_refl.
  - apply (vacated_same_outside _ _ _ _ _ Hvac). set_solver.
  - eapply same_outside_trans.
    + apply (vacated_same_outside _ _ _ _ _ Hvac). set_solver.
    + apply (rename_same_outside _ _ _ _ _ Hmv); set_solver.
Qed.

(** X12. When the rename of line 121 fails, [restore_pk3] has already
    emptied the archive path: after the message of line 124 nothing is at
    the archive path, while a backup path other than the archive path
    still holds what it held. *)
Theorem restore_pk3_rename_fails pk3_file backup_file fs e :
  ErrRestoring e ∈ printed_by (restore_pk3 pk3_file backup_file) fs →
  kind_of (ErrRestoring e) = Some IOError
  ∧ nodes (disk_after (restore_pk3 pk3_file backup_file) fs) !! pk3_file
    = None
  ∧ (backup_file ≠ pk3_file →
     nodes (disk_after (restore_pk3 pk3_file backup_file) fs) !! backup_file
     = nodes fs !! backup_file).
Proof.
  unfold printed_by, disk_after.
  destruct (restore_pk3_run pk3_file backup_file fs)
    as [?|?|fs1 log e' _ Hvac _|fs1 log fs2 _ Hvac _]; cbn; intros Hin.
  - exfalso. off_console Hin.
  - exfalso. off_console Hin.
  - split_and!; [done|by apply (vacated_free _ _ _ _ Hvac)|].
    intros Hne.
    apply (vacated_same_outside [pk3_file] _ _ _ _ Hvac); [by left|].
    apply not_elem_of_cons. split; [done|apply not_elem_of_nil].
  - exfalso. destruct Hvac as [(_ & _ & ->)|(_ & _ & ->)]; off_console Hin.
Qed.

(** X13. Restoring a file onto itself destroys it: when both paths name the
    same removable file, [restore_pk3] removes it (line 114), the rename of
    line 121 then finds nothing to rename, and the file is gone. *)
Theorem restore_pk3_same_path p fs bs :
  nodes fs !! p = Some (File bs) →
  p ∉ frozen fs →
  run (restore_pk3 p p) fs
  = (Normal tt,
     World (MkFS (delete p (nodes fs)) (frozen fs))
           [Removing p; ErrRestoring FileNotFoundError] []).
Proof.
  intros Hp Hfr.
  assert (Hex : Os.path_exists p fs = true).
  { apply path_exists_true. by rewrite Hp. }
  assert (Hrm : Os.remove p fs = inr (MkFS (delete p (nodes fs)) (frozen fs))).
  { unfold Os.remove. rewrite Hp. by rewrite bool_decide_eq_false_2. }
  assert (Hmv : Os.rename p p (MkFS (delete p (nodes fs)) (frozen fs))
                = inl FileNotFoundError).
  { unfold Os.rename. cbn. by rewrite lookup_delete_eq. }
  py_unfold. rewrite Hex. cbn. rewrite Hex. cbn. rewrite Hrm. cbn.
  by rewrite Hmv.
Qed.

Section Runs.

Variable unzip : bytes → option (list member).
Variable zip_image : list (string * bytes) → bytes.

#[local] Abbreviation backup := (backup_pk3 unzip zip_image).

(** A call of [backup_pk3] ends in one of the seven ways of [backup_run]. *)
Lemma backup_pk3_run pk3_file backup_file dirs fs :
  backup_run unzip zip_image pk3_file backup_file dirs fs
    (run (backup pk3_file backup_file dirs) fs).
Proof.
  py_unfold.
  destruct (Os.path_exists pk3_file fs) eqn:Hpk3; cbn.
  2:{ by constructor. }
  destruct (Os.copyfile pk3_file backup_file fs) as [e|fs1] eqn:Hcp.
  { destruct (Os.path_exists backup_file fs) eqn:Hbak; cbn; rewrite Hcp; cbn;
      rewrite (copyfile_raises_OSError _ _ _ _ Hcp); cbn;
      ends_with (backup_copy_failed unzip zip_image _ _ dirs _ _ Hpk3 Hcp). }
  destruct (copyfile_ok _ _ _ _ Hcp) as (Hne & _ & _ & bs & Hbs & Hfs1).
  assert (Hbs1 : nodes fs1 !! pk3_file = Some (File bs)).
  { rewrite Hfs1. cbn. by rewrite lookup_insert_ne. }
  clear Hpk3 Hfs1.
  destruct (unzip bs) as [cd|] eqn:Hcd.
  - destruct (Os.create (temp_of pk3_file) fs1) as [e|fs2] eqn:Hcr.
    + assert (Hfail : rewrite_fails unzip pk3_file bs fs1 (ErrModification e)).
      { right. eauto. }
      assert (Hcls : is_BadZipFile e = false).
      { unfold Os.create in Hcr.
        destruct (nodes fs1 !! temp_of pk3_file) as [[?|]|];
          [|by simplify_eq|case_bool_decide]; by simplify_eq. }
      destruct (Os.remove backup_file fs1) as [e'|fs3] eqn:Hrb;
        destruct (Os.path_exists backup_file fs) eqn:Hbak; cbn;
        rewrite Hcp; cbn; rewrite Hbs1, Hcd; cbn; rewrite Hcr; cbn;
        rewrite Hcls; cbn; rewrite Hrb; cbn.
      * ends_with (backup_rollback_raised unzip zip_image _ _ dirs _ _ _ _ _
                     Hbs Hcp Hfail Hrb).
      * ends_with (backup_rollback_raised unzip zip_image _ _ dirs _ _ _ _ _
                     Hbs Hcp Hfail Hrb).
      * ends_with (backup_rolled_back unzip zip_image _ _ dirs _ _ _ _ _
                     Hbs Hcp Hfail Hrb).
      * ends_with (backup_rolled_back unzip zip_image _ _ dirs _ _ _ _ _
                     Hbs Hcp Hfail Hrb).
    + destruct (Os.remove pk3_file (rewritten zip_image pk3_file cd dirs fs2))
        as [e|fs3] eqn:Hrm.
      { destruct (Os.path_exists backup_file fs) eqn:Hbak; cbn;
          rewrite Hcp; cbn; rewrite Hbs1, Hcd; cbn; rewrite Hcr; cbn;
          rewrite strip_run; cbn; rewrite <- rewrite_members_eq;
          unfold rewritten in Hrm; rewrite Hrm; cbn;
          ends_with (backup_archive_stays unzip zip_image _ _ dirs _ _ _ _ _ _
                       Hbs Hcp Hcd Hcr Hrm). }
      destruct (Os.rename (temp_of pk3_file) pk3_file fs3) as [e|fs4] eqn:Hmv.
      * destruct (Os.path_exists backup_file fs) eqn:Hbak; cbn;
          rewrite Hcp; cbn; rewrite Hbs1, Hcd; cbn; rewrite Hcr; cbn;
          rewrite strip_run; cbn; rewrite <- rewrite_members_eq;
          unfold rewritten in Hrm; rewrite Hrm; cbn; rewrite Hmv; cbn;
          ends_with (backup_archive_lost unzip zip_image _ _ dirs _ _ _ _ _ _ _
                       Hbs Hcp Hcd Hcr Hrm Hmv).
      * destruct (Os.path_exists backup_file fs) eqn:Hbak; cbn;
          rewrite Hcp; cbn; rewrite Hbs1, Hcd; cbn; rewrite Hcr; cbn;
          rewrite strip_run; cbn; rewrite <- rewrite_members_eq;
          unfold rewritten in Hrm; rewrite Hrm; cbn; rewrite Hmv; cbn;
          ends_with (backup_modified unzip zip_image _ _ dirs _ _ _ _ _ _ _
                       Hbs Hcp Hcd Hcr Hrm Hmv).
  - assert (Hfail : rewrite_fails unzip pk3_file bs fs1 (ErrNotZip pk3_file)).
    { by left. }
    destruct (Os.remove backup_file fs1) as [e'|fs3] eqn:Hrb;
      destruct (Os.path_exists backup_file fs) eqn:Hbak; cbn;
      rewrite Hcp; cbn; rewrite Hbs1, Hcd; cbn; rewrite Hrb; cbn.
    + ends_with (backup_rollback_raised unzip zip_image _ _ dirs _ _ _ _ _
                   Hbs Hcp Hfail Hrb).
    + ends_with (backup_rollback_raised unzip zip_image _ _ dirs _ _ _ _ _
                   Hbs Hcp Hfail Hrb).
    + ends_with (backup_rolled_back unzip zip_image _ _ dirs _ _ _ _ _
                   Hbs Hcp Hfail Hrb).
    + ends_with (backup_rolled_back unzip zip_image _ _ dirs _ _ _ _ _
                   Hbs Hcp Hfail Hrb).
Qed.

(** X3. [backup_pk3] changes nothing but the archive path, the backup path
    and the temporary path ["temp_" + pk3_file]: every other path keeps its
    node, and the frozen paths are the same. *)
Theorem backup_pk3_confined pk3_file backup_file dirs fs :
  same_outside [pk3_file; backup_file; temp_of pk3_file] fs
    (disk_after (backup pk3_file backup_file dirs) fs).
Proof.
  unfold disk_after.
  destruct (backup_pk3_run pk3_file backup_file dirs fs)
    as [?|?|bs fs1 m fs2 _ Hcp _ Hrb|bs fs1 m e _ Hcp _ _
        |bs cd fs1 fs2 e _ Hcp _ Hcr _
        |bs cd fs1 fs2 fs3 e _ Hcp _ Hcr Hrm _
        |bs cd fs1 fs2 fs3 fs4 _ Hcp _ Hcr Hrm Hmv]; cbn;
    unfold rewritten in *; try apply same_outside_refl.
  all: eapply same_outside_trans;
         [apply (copyfile_same_outside _ _ _ _ _ Hcp); set_solver|].
  - apply (remove_same_outside _ _ _ _ Hrb). set_solver.
  - apply same_outside_refl.
  - eapply same_outside_trans;
      [apply (create_same_outside _ _ _ _ Hcr); set_solver|].
    apply store_same_outside. set_solver.
  - eapply same_outside_trans;
      [apply (create_same_outside _ _ _ _ Hcr); set_solver|].
    eapply same_outside_trans;
      [apply (store_same_outside _ (temp_of pk3_file)); set_solver|].
    apply (remove_same_outside _ _ _ _ Hrm). set_solver.
  - eapply same_outside_trans;
      [apply (create_same_outside _ _ _ _ Hcr); set_solver|].
    eapply same_outside_trans;
      [apply (store_same_outside _ (temp_of pk3_file)); set_solver|].
    eapply same_outside_trans;
      [apply (remove_same_outside _ _ _ _ Hrm); set_solver|].
    apply (rename_same_outside _ _ _ _ _ Hmv); set_solver.
Qed.


(** X5. [backup_pk3] does not touch the archive before the rewrite has gone
    through: in every run that does not print the message of line 83, the
    archive path holds afterwards what it held before. *)
Theorem backup_pk3_archive_kept pk3_file backup_file dirs fs :
  FilesRemoved pk3_file ∉ printed_by (backup pk3_file backup_file dirs) fs →
  nodes (disk_after (backup pk3_file backup_file dirs) fs) !! pk3_file
  = nodes fs !! pk3_file.
Proof.
  assert (Hlog : ∀ cd, FilesRemoved pk3_file
                       ∈ rewritten_log pk3_file backup_file cd dirs fs).
  { intros cd. unfold rewritten_log. apply elem_of_app. right. right.
    apply elem_of_app. right. by left. }
  unfold printed_by, disk_after.
  destruct (backup_pk3_run pk3_file backup_file dirs fs)
    as [?|?|bs fs1 m fs2 Hbs Hcp _ Hrb|bs fs1 m e Hbs Hcp _ _|?|?|?]; cbn;
    intros Hno; try done.
  - destruct (copyfile_ok _ _ _ _ Hcp) as (Hne & _ & _ & bs' & _ & ->).
    destruct (remove_ok _ _ _ Hrb) as (-> & _). cbn.
    by rewrite lookup_delete_ne, lookup_insert_ne.
  - destruct (copyfile_ok _ _ _ _ Hcp) as (Hne & _ & _ & bs' & _ & ->).
    cbn. by rewrite lookup_insert_ne.
  - destruct Hno. apply elem_of_app. left. apply Hlog.
  - destruct Hno. apply elem_of_app. left. apply Hlog.
  - destruct Hno. apply elem_of_app. left. apply Hlog.
Qed.

(** X6. When the copy of line 44 fails, [backup_pk3] reports an IOError
    (the message of line 47) after the possible warning, returns, and the
    filesystem is what it was.  The copy fails in particular when the two
    paths are the same: [shutil.copyfile] then raises [SameFileError]. *)
Theorem backup_pk3_copy_fails pk3_file backup_file dirs fs e :
  Os.path_exists pk3_file fs = true →
  Os.copyfile pk3_file backup_file fs = inl e →
  run (backup pk3_file backup_file dirs) fs
    = (Normal tt,
       World fs (warn_overwrite backup_file fs ++ [ErrCreatingBackup e]) [])
  ∧ kind_of (ErrCreatingBackup e) = Some IOError
  ∧ (pk3_file = backup_file →
     e = SameFileError
     ∧ warn_overwrite backup_file fs = [WarnBackupExists backup_file]).
Proof.
  intros Hpk3 Hcp. split_and!; [|done|].
  - destruct (backup_pk3_run pk3_file backup_file dirs fs); congruence.
  - intros <-. unfold Os.copyfile in Hcp.
    rewrite bool_decide_eq_true_2 in Hcp by done. simplify_eq.
    unfold warn_overwrite. by rewrite Hpk3.
Qed.

(** X7. After a successful [backup_pk3] whose backup path is not the
    temporary path, the backup path holds the bytes the archive had before
    the call, and nothing is left at the temporary path. *)
Theorem backup_pk3_keeps_original pk3_file backup_file dirs fs bs :
  nodes fs !! pk3_file = Some (File bs) →
  backup_file ≠ temp_of pk3_file →
  Modified pk3_file ∈ printed_by (backup pk3_file backup_file dirs) fs →
  nodes (disk_after (backup pk3_file backup_file dirs) fs) !! backup_file
    = Some (File bs)
  ∧ nodes (disk_after (backup pk3_file backup_file dirs) fs)
      !! temp_of pk3_file = None.
Proof.
  unfold printed_by, disk_after.
  destruct (run (backup pk3_file backup_file dirs) fs) as [r w] eqn:Hrun.
  cbn. intros Hbs Hbt Hok.
  destruct (backup_pk3_modified_disk _ _ _ _ _ _ _ _ Hrun Hok)
    as (bs' & cd & Hbs' & _ & _ & _ & Htmp & Hbak & _).
  split; [|done]. rewrite Hbak by done. congruence.
Qed.

(** X8. When the backup path is the temporary path ["temp_" + pk3_file], a
    successful [backup_pk3] leaves no backup: the copy is overwritten by the
    rewritten archive, which is then renamed to the archive path. *)
Theorem backup_pk3_temp_as_backup pk3_file dirs fs :
  Modified pk3_file
    ∈ printed_by (backup pk3_file (temp_of pk3_file) dirs) fs →
  nodes (disk_after (backup pk3_file (temp_of pk3_file) dirs) fs)
    !! temp_of pk3_file = None
  ∧ ∃ bs cd,
      nodes fs !! pk3_file = Some (File bs)
      ∧ unzip bs = Some cd
      ∧ nodes (disk_after (backup pk3_file (temp_of pk3_file) dirs) fs)
          !! pk3_file
        = Some (File (zip_image (rewrite_members cd dirs))).
Proof.
  unfold printed_by, disk_after.
  destruct (run (backup pk3_file (temp_of pk3_file) dirs) fs)
    as [r w] eqn:Hrun.
  cbn. intros Hok.
  destruct (backup_pk3_modified_disk _ _ _ _ _ _ _ _ Hrun Hok)
    as (bs & cd & Hbs & Hcd & _ & Hnew & Htmp & _).
  eauto 10.
Qed.

(** X9. When the replacement of lines 94-100 fails, the work is not lost:
    the temporary path holds the rewritten archive, a backup path other
    than the temporary path holds the original bytes, and the archive path
    either still holds the original bytes ([os.remove] failed) or holds
    nothing ([os.rename] failed).  The call returns normally. *)
Theorem backup_pk3_replace_fails pk3_file backup_file dirs fs e :
  ErrReplacing e ∈ printed_by (backup pk3_file backup_file dirs) fs →
  outcome (backup pk3_file backup_file dirs) fs = Normal tt
  ∧ ∃ bs cd,
      nodes fs !! pk3_file = Some (File bs)
      ∧ unzip bs = Some cd
      ∧ nodes (disk_after (backup pk3_file backup_file dirs) fs)
          !! temp_of pk3_file
        = Some (File (zip_image (rewrite_members cd dirs)))
      ∧ (backup_file ≠ temp_of pk3_file →
         nodes (disk_after (backup pk3_file backup_file dirs) fs)
           !! backup_file = Some (File bs))
      ∧ (nodes (disk_after (backup pk3_file backup_file dirs) fs)
           !! pk3_file = Some (File bs)
         ∨ nodes (disk_after (backup pk3_file backup_file dirs) fs)
             !! pk3_file = None).
Proof.
  pose proof (temp_of_fresh pk3_file) as Htmp.
  unfold printed_by, outcome, disk_after.
  destruct (backup_pk3_run pk3_file backup_file dirs fs)
    as [?|?|?|?|bs cd fs1 fs2 e' Hbs Hcp Hcd Hcr Hrm
        |bs cd fs1 fs2 fs3 e' Hbs Hcp Hcd Hcr Hrm Hmv|?];
    cbn; unfold rewritten_log, rewritten in *; intros Hin;
    try (exfalso; off_console Hin).
  1,2: match goal with
       | Hf : rewrite_fails _ _ _ _ _ |- _ =>
           destruct Hf as [(_ & ->)|(? & ? & _ & _ & ->)]
       end; exfalso; off_console Hin.
  - destruct (copyfile_ok _ _ _ _ Hcp) as (Hne & _ & _ & bs' & Hbs' & ->).
    destruct (create_ok _ _ _ Hcr) as (-> & _). simplify_eq.
    split; [done|]. eexists _, cd. cbn. split_and!; [done..| | |].
    + apply lookup_insert_eq.
    + intros Hbt. rewrite !lookup_insert_ne by done. apply lookup_insert_eq.
    + left. by rewrite !lookup_insert_ne.
  - destruct (copyfile_ok _ _ _ _ Hcp) as (Hne & _ & _ & bs' & Hbs' & ->).
    destruct (create_ok _ _ _ Hcr) as (-> & _).
    destruct (remove_ok _ _ _ Hrm) as (-> & _). simplify_eq.
    split; [done|]. eexists _, cd. cbn. split_and!; [done..| | |].
    + rewrite lookup_delete_ne by done. apply lookup_insert_eq.
    + intros Hbt. rewrite lookup_delete_ne by done.
      rewrite !lookup_insert_ne by done. apply lookup_insert_eq.
    + right. apply lookup_delete_eq.
Qed.

(** X10. The second rollback, lines 89-92: when the rewrite fails for a
    reason other than the format (the temporary archive cannot be opened)
    and the call returns, the backup path is empty and every other path,
    the archive path among them, holds what it held before the call. *)
Theorem backup_pk3_rewrite_fails pk3_file backup_file dirs fs e :
  ErrModification e ∈ printed_by (backup pk3_file backup_file dirs) fs →
  outcome (backup pk3_file backup_file dirs) fs = Normal tt →
  kind_of (ErrModification e) = Some IOError
  ∧ nodes (disk_after (backup pk3_file backup_file dirs) fs) !! backup_file
    = None
  ∧ (∀ q, q ≠ backup_file →
       nodes (disk_after (backup pk3_file backup_file dirs) fs) !! q
       = nodes fs !! q)
  ∧ frozen (disk_after (backup pk3_file backup_file dirs) fs) = frozen fs.
Proof.
  unfold printed_by, outcome, disk_after.
  destruct (backup_pk3_run pk3_file backup_file dirs fs)
    as [?|?|bs fs1 m fs2 Hbs Hcp Hfail Hrb|?|?|?|?];
    cbn; unfold rewritten_log in *; intros Hin Hret;
    try (exfalso; off_console Hin); try done.
  destruct (copyfile_ok _ _ _ _ Hcp) as (Hne & _ & _ & bs' & Hbs' & ->).
  destruct (remove_ok _ _ _ Hrb) as (-> & _). cbn.
  split_and!; [done|apply lookup_delete_eq| |done].
  intros q Hq. by rewrite lookup_delete_ne, lookup_insert_ne.
Qed.

(** X11. Calling [backup_pk3] twice in a row loses the original: after two
    successful calls with the same paths (the backup path not being the
    temporary path), the backup holds the archive the first call wrote, not
    the bytes the archive had at the start. *)
Theorem backup_pk3_twice pk3_file backup_file dirs fs :
  backup_file ≠ temp_of pk3_file →
  Modified pk3_file ∈ printed_by (backup pk3_file backup_file dirs) fs →
  Modified pk3_file
    ∈ printed_by (backup pk3_file backup_file dirs)
                 (disk_after (backup pk3_file backup_file dirs) fs) →
  ∃ bs cd,
    nodes fs !! pk3_file = Some (File bs)
    ∧ unzip bs = Some cd
    ∧ nodes (disk_after (backup pk3_file backup_file dirs)
               (disk_after (backup pk3_file backup_file dirs) fs))
        !! backup_file
      = Some (File (zip_image (rewrite_members cd dirs))).
Proof.
  unfold printed_by, disk_after.
  destruct (run (backup pk3_file backup_file dirs) fs) as [r w] eqn:Hrun.
  cbn. intros Hbt Hok.
  destruct (backup_pk3_modified_disk _ _ _ _ _ _ _ _ Hrun Hok)
    as (bs & cd & Hbs & Hcd & _ & Hnew & _).
  destruct (run (backup pk3_file backup_file dirs) (disk w))
    as [r2 w2] eqn:Hrun2.
  cbn. intros Hok2.
  destruct (backup_pk3_modified_disk _ _ _ _ _ _ _ _ Hrun2 Hok2)
    as (bs2 & cd2 & Hbs2 & _ & _ & _ & _ & Hbak2 & _).
  exists bs, cd. split_and!; [done..|].
  rewrite Hbak2 by done. congruence.
Qed.

End Runs.

(** ** More on the strip loop *)

Lemma startswith_iff n d :
  Str.startswith n d = true ↔ ∃ rest, n = d +:+ rest.
Proof.
  unfold Str.startswith. revert n. induction d as [|c d IH]; intros n.
  - split; [intros _; by exists n|by destruct n].
  - destruct n as [|c' n].
    + split; [done|]. by intros [rest ?].
    + cbn [String.prefix]. destruct (Ascii.ascii_dec c c') as [->|Hc].
      * rewrite IH. split; intros [rest Hrest]; exists rest.
        -- by rewrite Hrest.
        -- change (String c' d +:+ rest) with (String c' (d +:+ rest)) in Hrest.
           by simplify_eq.
      * split; [done|]. intros [rest Hrest].
        change (String c d +:+ rest) with (String c (d +:+ rest)) in Hrest.
        by simplify_eq.
Qed.

(** X14. The test of lines 60-64 is a plain string-prefix test: an entry is
    excluded exactly when its name is one of the prefixes followed by
    anything, whatever the path segments are. *)
Theorem should_exclude_iff n dirs :
  should_exclude n dirs = true ↔ ∃ d rest, d ∈ dirs ∧ n = d +:+ rest.
Proof.
  induction dirs as [|d dirs IH]; cbn.
  { split; [done|]. by intros (d & rest & ?%elem_of_nil & _). }
  destruct (Str.startswith n d) eqn:Hpre.
  - split; [intros _|done].
    apply startswith_iff in Hpre as [rest ->]. exists d, rest.
    split; [by left|done].
  - rewrite IH. split.
    + intros (d' & rest & Hd' & ->). exists d', rest. split; [by right|done].
    + intros (d' & rest & Hd' & ->).
      apply elem_of_cons in Hd' as [->|Hd']; [|by eauto].
      by rewrite startswith_app in Hpre.
Qed.

Lemma copied_names_sublist zr dirs items :
  map fst (flat_map (item_out zr dirs) items)
  `sublist_of` List.filter (λ n, negb (should_exclude n dirs))
                           (map filename items).
Proof.
  induction items as [|item items IH]; [constructor|].
  cbn. rewrite map_app. unfold item_out at 1.
  destruct (should_exclude (filename item) dirs); cbn; [done|].
  destruct (NameToInfo zr !! filename item) as [z|]; [|by constructor].
  destruct (intact z); cbn; by constructor.
Qed.

(** X15. Whatever the archive, the names [backup_pk3] writes are some of
    the names that no prefix excludes, in their order in the source,
    followed by the placeholders: an excluded entry is never copied, no
    name is invented and none is moved. *)
Theorem strip_never_copies_excluded cd dirs :
  ∃ kept,
    map fst (rewrite_members cd dirs) = kept ++ map keep_file_path dirs
    ∧ kept `sublist_of` List.filter (λ n, negb (should_exclude n dirs))
                                    (map filename cd).
Proof.
  exists (map fst (flat_map (item_out (open_reader cd) dirs) cd)).
  split; [|apply copied_names_sublist].
  rewrite rewrite_members_eq. unfold strip_out.
  by rewrite map_app, map_map.
Qed.

(** [NameToInfo] leads from a name to the last member of that name. *)
Lemma NameToInfo_last cd k :
  NameToInfo (open_reader cd) !! k
  = last (filter (λ m, filename m = k) cd).
Proof.
  cbn. induction cd as [|x cd IH] using rev_ind; [done|].
  rewrite foldl_app, filter_app. cbn.
  destruct (decide (filename x = k)) as [<-|Hne].
  - by rewrite lookup_insert_eq, last_snoc.
  - by rewrite lookup_insert_ne, app_nil_r.
Qed.

(** X16. Every entry the copy loop writes carries the bytes of the last
    member of the source that bears its name, and that member is readable;
    the other written entries are the empty placeholders. *)
Theorem strip_reads_last_of_name cd dirs n bs :
  (n, bs) ∈ rewrite_members cd dirs →
  (should_exclude n dirs = false
   ∧ ∃ z, last (filter (λ m, filename m = n) cd) = Some z
          ∧ intact z = true ∧ bs = data z)
  ∨ (bs = [] ∧ ∃ d, d ∈ dirs ∧ n = keep_file_path d).
Proof.
  rewrite rewrite_members_eq. unfold strip_out.
  rewrite elem_of_app. intros [H|H].
  - left. apply list_elem_of_In, in_flat_map in H as (item & _ & H).
    apply list_elem_of_In in H. unfold item_out in H.
    destruct (should_exclude (filename item) dirs) eqn:Hex;
      [by apply elem_of_nil in H|].
    rewrite NameToInfo_last in H.
    destruct (last _) as [z|] eqn:Hlast; [|by apply elem_of_nil in H].
    destruct (intact z) eqn:Hz; [|by apply elem_of_nil in H].
    apply list_elem_of_singleton in H. simplify_eq. eauto.
  - right. apply list_elem_of_fmap in H as (d & ? & Hd). simplify_eq. eauto.
Qed.

Lemma reopen_members (ms : list member) :
  (∀ z, z ∈ ms → intact z = true) →
  reopen (map (λ m, (filename m, data m)) ms) = ms.
Proof.
  unfold reopen. induction ms as [|[n bs ok] ms IH]; intros Hok; [done|].
  cbn. rewrite IH by (intros z Hz; apply Hok; by right).
  by rewrite <- (Hok (Member n bs ok)) by by left.
Qed.

(** X17. On an archive with pairwise distinct, non-empty names and
    readable members the strip is exact: read back, the rewritten archive
    is the source archive without the excluded members, each kept member
    with its own name and bytes and in its place, followed by one empty
    placeholder per prefix.  (A member with the empty name is one that
    [writestr] may refuse, the entry being skipped then.) *)
Theorem strip_exact_on_distinct_names cd dirs :
  NoDup (map filename cd) →
  (∀ z, z ∈ cd → filename z ≠ "") →
  (∀ z, z ∈ cd → intact z = true) →
  reopen (rewrite_members cd dirs)
  = List.filter (λ m, negb (should_exclude (filename m) dirs)) cd
    ++ map (λ d, Member (keep_file_path d) [] true) dirs.
Proof.
  intros Hnd _ Hok. rewrite rewrite_members_distinct_names by done.
  unfold reopen at 1. rewrite map_app. f_equal; [|by rewrite map_map].
  apply reopen_members. intros z Hz%list_elem_of_In.
  apply List.filter_In in Hz as [Hz _]. by apply Hok, list_elem_of_In.
Qed.

(** X18. An empty string among the prefixes empties the archive: every
    name starts with it, so every entry is dropped and only the
    placeholders are written. *)
Theorem strip_with_empty_prefix cd dirs :
  "" ∈ dirs →
  rewrite_members cd dirs = map (λ d, (keep_file_path d, [])) dirs.
Proof.
  intros Hin. rewrite rewrite_members_eq. unfold strip_out.
  assert (H : ∀ items, flat_map (item_out (open_reader cd) dirs) items = []).
  { induction items as [|item items IH]; [done|]. cbn. rewrite IH.
    unfold item_out. rewrite (should_exclude_elem _ "" dirs Hin); [done|].
    unfold Str.startswith. by destruct (filename item). }
  by rewrite H.
Qed.

(** ** Backup, then restore: the whole filesystem *)

Lemma backup_then_restore_run unzip zip_image pk3_file backup_file dirs fs :
  backup_file ≠ temp_of pk3_file →
  nodes fs !! backup_file = None →
  nodes fs !! temp_of pk3_file = None →
  Modified pk3_file
    ∈ printed_by (backup_pk3 unzip zip_image pk3_file backup_file dirs) fs →
  run (restore_pk3 pk3_file backup_file)
      (disk_after (backup_pk3 unzip zip_image pk3_file backup_file dirs) fs)
  = (Normal tt, World fs [Removing pk3_file; Restored pk3_file] []).
Proof.
  unfold printed_by, disk_after.
  destruct (run (backup_pk3 unzip zip_image pk3_file backup_file dirs) fs)
    as [r w] eqn:Hrun.
  cbn. intros Hbt Hnobak Hnotmp Hok.
  pose proof (temp_of_fresh pk3_file) as Htmp.
  destruct (backup_pk3_modified_inv _ _ _ _ _ _ _ _ Hrun Hok)
    as (bs & cd & fs1 & fs2 & fs3 & Hbs & Hcp & _ & _ & Hcr & Hrm & Hmv & _).
  destruct (copyfile_ok _ _ _ _ Hcp) as (Hne & _ & Hnew & bs' & Hbs' & ->).
  simplify_eq. specialize (Hnew Hnobak).
  destruct (create_ok _ _ _ Hcr) as (-> & _).
  destruct (remove_ok _ _ _ Hrm) as (-> & Hfr & _).
  destruct (rename_ok_fresh _ _ _ _ Hmv) as (_ & _ & n & Hn & Hw).
  { cbn. apply lookup_delete_eq. }
  cbn in Hn, Hfr. rewrite lookup_delete_ne, lookup_insert_eq in Hn by done.
  simplify_eq. rewrite Hw. clear Hw Hrun Hok Hcp Hcr Hrm Hmv.
  destruct fs as [ns fr]. cbn in *.
  set (fs1 := MkFS _ fr).
  assert (Hex1 : Os.path_exists backup_file fs1 = true).
  { apply path_exists_true. cbn.
    rewrite lookup_insert_ne, !lookup_delete_ne, !lookup_insert_ne by done.
    by rewrite lookup_insert_eq. }
  assert (Hex2 : Os.path_exists pk3_file fs1 = true).
  { apply path_exists_true. cbn. by rewrite lookup_insert_eq. }
  assert (Hrm : Os.remove pk3_file fs1
                = inr (MkFS (delete pk3_file (nodes fs1)) fr)).
  { unfold Os.remove. cbn. rewrite lookup_insert_eq.
    by rewrite bool_decide_eq_false_2. }
  assert (Hmv : Os.rename backup_file pk3_file
                  (MkFS (delete pk3_file (nodes fs1)) fr)
                = inr (MkFS ns fr)).
  { unfold Os.rename. cbn.
    rewrite lookup_delete_ne, lookup_insert_ne, !lookup_delete_ne,
      !lookup_insert_ne, lookup_insert_eq by done.
    rewrite bool_decide_eq_false_2 by done.
    rewrite !bool_decide_eq_false_2 by done. cbn.
    rewrite lookup_delete_eq. do 2 f_equal.
    apply map_eq. intros q.
    destruct (decide (q = pk3_file)) as [->|Hq1].
    { by rewrite lookup_insert_eq. }
    rewrite lookup_insert_ne by done.
    destruct (decide (q = backup_file)) as [->|Hq2].
    { by rewrite lookup_delete_eq. }
    rewrite !lookup_delete_ne, lookup_insert_ne by done.
    destruct (decide (q = temp_of pk3_file)) as [->|Hq3].
    { by rewrite lookup_delete_eq. }
    rewrite !lookup_delete_ne, !lookup_insert_ne by done.
    done. }
  subst fs1. cbn in Hrm, Hmv.
  py_unfold. rewrite Hex1. cbn. rewrite Hex2. cbn. rewrite Hrm. cbn.
  by rewrite Hmv.
Qed.

(** X19. Backup, then restore, on the whole filesystem: when nothing was at
    the backup path nor at the temporary path before, and the two differ, a
    successful [backup_pk3] followed by [restore_pk3] with the same paths
    ends with the message of line 122 on exactly the filesystem the backup
    started from. *)
Theorem backup_then_restore_filesystem unzip zip_image
    pk3_file backup_file dirs fs :
  backup_file ≠ temp_of pk3_file →
  nodes fs !! backup_file = None →
  nodes fs !! temp_of pk3_file = None →
  Modified pk3_file
    ∈ printed_by (backup_pk3 unzip zip_image pk3_file backup_file dirs) fs →
  run (restore_pk3 pk3_file backup_file)
      (disk_after (backup_pk3 unzip zip_image pk3_file backup_file dirs) fs)
  = (Normal tt, World fs [Removing pk3_file; Restored pk3_file] []).
Proof. apply backup_then_restore_run. Qed.

Lemma string_length_app (a b : string) :
  String.length (a +:+ b) = String.length a + String.length b.
Proof.
  induction a as [|c a IH]; [done|].
  change (String c a +:+ b) with (String c (a +:+ b)). cbn. by rewrite IH.
Qed.

Lemma BACKUP_FILE_not_temp name : Main.BACKUP_FILE name ≠ temp_of name.
Proof.
  intros H. apply (f_equal String.length) in H.
  unfold Main.BACKUP_FILE, temp_of in H. rewrite !string_length_app in H.
  cbn in H. lia.
Qed.

(** X20. The paths [main] builds never coincide: the backup path
    [name + ".bak"] is neither the archive path nor the temporary path.  So
    a successful choice 1 always leaves the original bytes in the backup,
    and, when no backup and no temporary file were there before, a
    following choice 2 succeeds and gives back exactly the filesystem
    choice 1 started from. *)
Theorem main_choice_1_then_choice_2 unzip zip_image name fs :
  Modified name ∈ printed_by (Main.choice_1 unzip zip_image name) fs →
  Main.BACKUP_FILE name ≠ name
  ∧ Main.BACKUP_FILE name ≠ temp_of name
  ∧ nodes (disk_after (Main.choice_1 unzip zip_image name) fs)
      !! Main.BACKUP_FILE name
    = nodes fs !! name
  ∧ (nodes fs !! Main.BACKUP_FILE name = None →
     nodes fs !! temp_of name = None →
     run (Main.choice_2 name)
         (disk_after (Main.choice_1 unzip zip_image name) fs)
     = (Normal tt, World fs [Removing name; Restored name] [])).
Proof.
  intros Hok. pose proof (BACKUP_FILE_not_temp name) as Hbt.
  split_and!; [|done| |].
  - intros H. apply (f_equal String.length) in H.
    unfold Main.BACKUP_FILE in H. rewrite string_length_app in H.
    cbn in H. lia.
  - unfold printed_by, disk_after, Main.choice_1 in *.
    destruct (run _ fs) as [r w] eqn:Hrun. cbn in *.
    destruct (backup_pk3_modified_disk _ _ _ _ _ _ _ _ Hrun Hok)
      as (bs & cd & Hbs & _ & _ & _ & _ & Hbak & _).
    by rewrite Hbak, Hbs.
  - intros Hnobak Hnotmp. by apply backup_then_restore_run.
Qed.

(** X21. [resource_path] always ends with the relative path it is given:
    it is that path itself when the path starts with a slash, whatever the
    base, and lies under the base path ([sys._MEIPASS] in a bundle, the
    working directory otherwise) when it does not. *)
Theorem resource_path_cases meipass cwd relative_path :
  (∃ front, resource_path meipass cwd relative_path
            = front +:+ relative_path)
  ∧ (Str.startswith relative_path "/" = true →
     resource_path meipass cwd relative_path = relative_path)
  ∧ (Str.startswith relative_path "/" = false →
     Str.startswith (resource_path meipass cwd relative_path)
                    (default cwd meipass) = true).
Proof.
  unfold resource_path, Str.os_path_join.
  replace (match meipass with Some bundle => bundle | None => cwd end)
    with (default cwd meipass) by by destruct meipass.
  destruct (Str.startswith relative_path "/").
  - split_and!; [by exists ""|done..].
  - destruct (_ || _).
    + split_and!; [by eexists|done|]. intros _. apply startswith_app.
    + split_and!; [|done|intros _; apply startswith_app].
      exists (default cwd meipass +:+ "/").
      generalize (default cwd meipass). intros s.
      induction s as [|c s IH]; [done|].
      change (String c s +:+ ?x) with (String c (s +:+ x)).
      change ((String c s +:+ "/") +:+ relative_path)
        with (String c ((s +:+ "/") +:+ relative_path)).
      by rewrite IH.
Qed.

(** ** The further theorems at concrete inputs *)

Lemma backup_pk3_archive_kept_witness :
  nodes (disk_after (demo_backup "notes.pk3" "notes.pk3.bak"
                                 Demo.DIRS_TO_CLEAR) Demo.fs_text_alone)
    !! "notes.pk3"
  = nodes Demo.fs_text_alone !! "notes.pk3".
Proof.
  apply (backup_pk3_archive_kept Demo.unzip Demo.zip_image).
  vm_compute. intros H. absent_in H.
Defined.

Lemma backup_pk3_copy_fails_witness :
  Os.copyfile "MBAssets3.pk3" "MBAssets3.pk3" Demo.fs0 = inl SameFileError
  ∧ run (demo_backup "MBAssets3.pk3" "MBAssets3.pk3" Demo.DIRS_TO_CLEAR)
        Demo.fs0
    = (Normal tt,
       World Demo.fs0
             [WarnBackupExists "MBAssets3.pk3";
              ErrCreatingBackup SameFileError] []).
Proof.
  split; [vm_compute; reflexivity|].
  destruct (backup_pk3_copy_fails Demo.unzip Demo.zip_image
              "MBAssets3.pk3" "MBAssets3.pk3" Demo.DIRS_TO_CLEAR Demo.fs0
              SameFileError) as (Hrun & _).
  - vm_compute; reflexivity.
  - vm_compute; reflexivity.
  - rewrite Hrun. vm_compute. reflexivity.
Defined.

Lemma backup_pk3_keeps_original_witness :
  nodes (disk_after (demo_backup "MBAssets3.pk3" "MBAssets3.pk3.bak"
                                 Demo.DIRS_TO_CLEAR) Demo.fs0)
    !! "MBAssets3.pk3.bak" = Some (File Demo.assets_bytes)
  ∧ nodes (disk_after (demo_backup "MBAssets3.pk3" "MBAssets3.pk3.bak"
                                   Demo.DIRS_TO_CLEAR) Demo.fs0)
      !! temp_of "MBAssets3.pk3" = None.
Proof.
  apply (backup_pk3_keeps_original Demo.unzip Demo.zip_image).
  - vm_compute; reflexivity.
  - discriminate.
  - vm_compute. repeat constructor.
Defined.

Lemma backup_pk3_temp_as_backup_witness :
  nodes (disk_after (demo_backup "MBAssets3.pk3" (temp_of "MBAssets3.pk3")
                                 Demo.DIRS_TO_CLEAR) Demo.fs0)
    !! temp_of "MBAssets3.pk3" = None.
Proof.
  apply (backup_pk3_temp_as_backup Demo.unzip Demo.zip_image).
  vm_compute. repeat constructor.
Defined.

Lemma backup_pk3_replace_fails_witness :
  outcome (demo_backup "MBAssets3.pk3" "MBAssets3.pk3.bak"
                       Demo.DIRS_TO_CLEAR) Cases.fs_pinned = Normal tt
  ∧ ErrReplacing PermissionError
      ∈ printed_by (demo_backup "MBAssets3.pk3" "MBAssets3.pk3.bak"
                                Demo.DIRS_TO_CLEAR) Cases.fs_pinned.
Proof.
  assert (Hin : ErrReplacing PermissionError
      ∈ printed_by (demo_backup "MBAssets3.pk3" "MBAssets3.pk3.bak"
                                Demo.DIRS_TO_CLEAR) Cases.fs_pinned).
  { vm_compute. repeat constructor. }
  split; [|done].
  by destruct (backup_pk3_replace_fails Demo.unzip Demo.zip_image
                 _ _ _ _ _ Hin).
Defined.

Lemma backup_pk3_rewrite_fails_witness :
  nodes (disk_after (demo_backup "MBAssets3.pk3" "MBAssets3.pk3.bak"
                                 Demo.DIRS_TO_CLEAR) Cases.fs_no_temp)
    !! "MBAssets3.pk3.bak" = None
  ∧ frozen (disk_after (demo_backup "MBAssets3.pk3" "MBAssets3.pk3.bak"
                                    Demo.DIRS_TO_CLEAR) Cases.fs_no_temp)
    = frozen Cases.fs_no_temp.
Proof.
  destruct (backup_pk3_rewrite_fails Demo.unzip Demo.zip_image
              "MBAssets3.pk3" "MBAssets3.pk3.bak" Demo.DIRS_TO_CLEAR
              Cases.fs_no_temp PermissionError) as (_ & Hbak & _ & Hfr).
  - vm_compute. repeat constructor.
  - vm_compute; reflexivity.
  - by split.
Defined.

Lemma backup_pk3_twice_witness :
  ∃ bs cd,
    nodes Demo.fs0 !! "MBAssets3.pk3" = Some (File bs)
    ∧ Cases.unzip bs = Some cd
    ∧ nodes (disk_after
               (backup_pk3 Cases.unzip Demo.zip_image "MBAssets3.pk3"
                           "MBAssets3.pk3.bak" Demo.DIRS_TO_CLEAR)
               (disk_after
                  (backup_pk3 Cases.unzip Demo.zip_image "MBAssets3.pk3"
                              "MBAssets3.pk3.bak" Demo.DIRS_TO_CLEAR)
                  Demo.fs0)) !! "MBAssets3.pk3.bak"
      = Some (File (Demo.zip_image
                      (rewrite_members cd Demo.DIRS_TO_CLEAR))).
Proof.
  apply (backup_pk3_twice Cases.unzip Demo.zip_image).
  - discriminate.
  - vm_compute. repeat constructor.
  - vm_compute. repeat constructor.
Defined.

Lemma restore_pk3_rename_fails_witness :
  nodes (disk_after (restore_pk3 "MBAssets3.pk3" "MBAssets3.pk3.bak")
                    Cases.fs_backup_stuck) !! "MBAssets3.pk3" = None
  ∧ nodes (disk_after (restore_pk3 "MBAssets3.pk3" "MBAssets3.pk3.bak")
                      Cases.fs_backup_stuck) !! "MBAssets3.pk3.bak"
    = Some (File Demo.assets_bytes).
Proof.
  destruct (restore_pk3_rename_fails "MBAssets3.pk3" "MBAssets3.pk3.bak"
              Cases.fs_backup_stuck PermissionError) as (_ & Hgone & Hbak).
  - vm_compute. repeat constructor.
  - split; [done|]. rewrite Hbak by discriminate. vm_compute. reflexivity.
Defined.

Lemma restore_pk3_same_path_witness :
  run (restore_pk3 "MBAssets3.pk3" "MBAssets3.pk3") Demo.fs0
  = (Normal tt,
     World (MkFS ∅ ∅)
           [Removing "MBAssets3.pk3"; ErrRestoring FileNotFoundError] []).
Proof.
  rewrite (restore_pk3_same_path "MBAssets3.pk3" Demo.fs0 Demo.assets_bytes).
  - vm_compute. reflexivity.
  - vm_compute. reflexivity.
  - apply not_elem_of_empty.
Defined.

Lemma strip_reads_last_of_name_witness :
  should_exclude "notes.txt" Demo.DIRS_TO_CLEAR = false
  ∧ ∃ z, last (filter (λ m, filename m = "notes.txt") Demo.twins) = Some z
         ∧ intact z = true ∧ Demo.st "second" = data z.
Proof.
  destruct (strip_reads_last_of_name Demo.twins Demo.DIRS_TO_CLEAR
              "notes.txt" (Demo.st "second")) as [H|(Hnil & _)].
  - vm_compute. repeat constructor.
  - exact H.
  - discriminate Hnil.
Defined.

Lemma strip_exact_on_distinct_names_witness :
  reopen (rewrite_members Demo.assets Demo.DIRS_TO_CLEAR)
  = [ Member "a.txt" (Demo.st "alpha") true;
      Member "readme.md" (Demo.st "read me") true;
      Member "ext_data/mb2/character/.keep" [] true;
      Member "ext_data/mb2/teamconfig/.keep" [] true ].
Proof.
  rewrite (strip_exact_on_distinct_names Demo.assets Demo.DIRS_TO_CLEAR).
  - reflexivity.
  - apply (bool_decide_unpack _). vm_compute. exact I.
  - apply Forall_forall. vm_compute. repeat constructor; discriminate.
  - apply Forall_forall. vm_compute. repeat constructor.
Defined.

Lemma strip_with_empty_prefix_witness :
  rewrite_members Demo.assets ["docs/"; ""]
  = [ ("docs/.keep", []); (".keep", []) ].
Proof.
  rewrite (strip_with_empty_prefix Demo.assets ["docs/"; ""]).
  - reflexivity.
  - vm_compute. repeat constructor.
Defined.

Lemma backup_then_restore_filesystem_witness :
  run (restore_pk3 "MBAssets3.pk3" "MBAssets3.pk3.bak")
      (disk_after (demo_backup "MBAssets3.pk3" "MBAssets3.pk3.bak"
                               Demo.DIRS_TO_CLEAR) Demo.fs0)
  = (Normal tt,
     World Demo.fs0 [Removing "MBAssets3.pk3"; Restored "MBAssets3.pk3"] []).
Proof.
  apply (backup_then_restore_filesystem Demo.unzip Demo.zip_image).
  - discriminate.
  - vm_compute; reflexivity.
  - vm_compute; reflexivity.
  - vm_compute. repeat constructor.
Defined.

Lemma main_choice_1_then_choice_2_witness :
  run (Main.choice_2 "MBAssets3.pk3")
      (disk_after (Main.choice_1 Demo.unzip Demo.zip_image "MBAssets3.pk3")
                  Demo.fs0)
  = (Normal tt,
     World Demo.fs0 [Removing "MBAssets3.pk3"; Restored "MBAssets3.pk3"] []).
Proof.
  destruct (main_choice_1_then_choice_2 Demo.unzip Demo.zip_image
              "MBAssets3.pk3" Demo.fs0) as (_ & _ & _ & Hback).
  - vm_compute. repeat constructor.
  - apply Hback; vm_compute; reflexivity.
Defined.


Lemma restore_pk3_confined_witness :
  same_outside ["MBAssets3.pk3"; "MBAssets3.pk3.bak"] Demo.fs_stripped
    (disk_after (restore_pk3 "MBAssets3.pk3" "MBAssets3.pk3.bak")
                Demo.fs_stripped).
Proof.
  apply restore_pk3_confined. vm_compute. discriminate.
Defined.

